(** * python-pacman: a shallow embedding of [pacman.py]

    The module drives the [pacman] command-line tool through
    [subprocess.Popen] and parses its line-oriented output.  The embedding
    keeps the shape of the source:

    - Python [str] values are [string]s (characters are code points below
      256), [bytes] are [list byte];
    - the interpreter state that matters (the module global
      [__PACMAN_BIN], the default values that the [def] statements captured,
      and the list of spawned argument vectors) is threaded explicitly
      through a small state-and-exception monad;
    - the operating system ([shutil.which], [os.path.isfile], the spawned
      process, [bytes.decode]) is a record of functions, so every
      definition below computes on a concrete environment;
    - a [dict] is an association list in insertion order.

    [is_aur] performs an HTTP request: the response is a parameter of its
    embedding. *)

From Stdlib Require Import String Ascii List ZArith Bool Arith Lia Permutation.
From Stdlib Require Import Strings.Byte.
Import ListNotations.
Local Open Scope string_scope.
Local Open Scope list_scope.

(* ===================================================================== *)
(** ** Python string and bytes primitives *)
(* ===================================================================== *)

Module PyStr.

(** [str.isspace] on the code points below 256. *)
Definition isspace (c : ascii) : bool :=
  let n := nat_of_ascii c in
  (((9 <=? n) && (n <=? 13)) || ((28 <=? n) && (n <=? 32))
   || (n =? 133) || (n =? 160))%nat.

Definition LF : ascii := ascii_of_nat 10.
Definition nl : string := String LF EmptyString.
Definition dquote : ascii := ascii_of_nat 34.
Definition squote : ascii := "'"%char.

Definition is_empty (s : string) : bool :=
  match s with EmptyString => true | String _ _ => false end.

(** Truth value of a [str]: non-empty. *)
Definition truthy (s : string) : bool := negb (is_empty s).

Definition snoc (s : string) (c : ascii) : string := s ++ String c EmptyString.

(** [maxsplit] bookkeeping: [None] is "no limit". *)
Definition may_split (limit : option nat) : bool :=
  match limit with Some O => false | _ => true end.

Definition spend (limit : option nat) : option nat :=
  match limit with Some (S k) => Some k | other => other end.

(** [s.split(sep)] and [s.split(sep, maxsplit)] for a non-empty [sep]:
    a left-to-right scan for non-overlapping occurrences.  [skip] counts the
    characters of a matched separator that are still to be dropped and [cur]
    is the piece being accumulated. *)
Fixpoint split_from (sep : string) (skip : nat) (limit : option nat)
         (cur : string) (s : string) : list string :=
  match s with
  | EmptyString => [cur]
  | String c s' =>
      match skip with
      | S k => split_from sep k limit cur s'
      | O =>
          if may_split limit && prefix sep s
          then cur :: split_from sep (pred (String.length sep)) (spend limit) "" s'
          else split_from sep 0 limit (snoc cur c) s'
      end
  end.

Definition split (sep : string) (limit : option nat) (s : string) : list string :=
  split_from sep 0 limit "" s.

(** [s.split()] with no separator: runs of whitespace separate, and empty
    pieces are dropped. *)
Fixpoint split_ws_from (cur : string) (s : string) : list string :=
  match s with
  | EmptyString => if is_empty cur then [] else [cur]
  | String c s' =>
      if isspace c
      then (if is_empty cur then split_ws_from "" s'
            else cur :: split_ws_from "" s')
      else split_ws_from (snoc cur c) s'
  end.

Definition split_ws (s : string) : list string := split_ws_from "" s.

Fixpoint lstrip (s : string) : string :=
  match s with
  | EmptyString => EmptyString
  | String c s' => if isspace c then lstrip s' else s
  end.

Fixpoint rstrip (s : string) : string :=
  match s with
  | EmptyString => EmptyString
  | String c s' =>
      let r := rstrip s' in
      if is_empty r && isspace c then EmptyString else String c r
  end.

(** [s.strip()] *)
Definition strip (s : string) : string := rstrip (lstrip s).

(** [sub in s] for strings. *)
Fixpoint contains (sub : string) (s : string) : bool :=
  prefix sub s ||
  match s with
  | EmptyString => false
  | String _ s' => contains sub s'
  end.

(** [s.replace(old, new)] for a one-character [old]. *)
Fixpoint replace_char (old : ascii) (new : string) (s : string) : string :=
  match s with
  | EmptyString => EmptyString
  | String c s' =>
      (if Ascii.eqb c old then new else String c EmptyString)
        ++ replace_char old new s'
  end.

(** [b.rstrip(b'\n')] on bytes. *)
Fixpoint rstrip_lf (b : list byte) : list byte :=
  match b with
  | [] => []
  | c :: b' =>
      match rstrip_lf b' with
      | [] => if Byte.eqb c x0a then [] else [c]
      | r => c :: r
      end
  end.

(** [shlex.quote]: the characters that need no quoting are those of
    the class [\w@%+=:,./-] (ASCII). *)
Definition shell_safe (c : ascii) : bool :=
  let n := nat_of_ascii c in
  (((48 <=? n) && (n <=? 57)) || ((65 <=? n) && (n <=? 90))
   || ((97 <=? n) && (n <=? 122)) || (n =? 95)
   || (n =? 64) || (n =? 37) || (n =? 43) || (n =? 61) || (n =? 58)
   || (n =? 44) || (n =? 46) || (n =? 47) || (n =? 45))%nat.

Fixpoint all_safe (s : string) : bool :=
  match s with
  | EmptyString => true
  | String c s' => shell_safe c && all_safe s'
  end.

Definition quote (s : string) : string :=
  if is_empty s then "''"
  else if all_safe s then s
  else
    let q := String squote EmptyString in
    let dq := String dquote EmptyString in
    q ++ replace_char squote (q ++ dq ++ q ++ dq ++ q) s ++ q.

End PyStr.

(* ===================================================================== *)
(** ** Values, exceptions and the monads *)
(* ===================================================================== *)

(** The Python values that reach an argument vector: [None] or a [str]. *)
Inductive value : Type :=
| VNone
| VStr (s : string).

Definition truthy_value (v : value) : bool :=
  match v with
  | VNone => false
  | VStr s => PyStr.truthy s
  end.

(** The exceptions the module can raise, directly or through the
    standard library. *)
Inductive exn : Type :=
| IOError (msg : string)
| Exception (msg : string)
| IndexError
| TypeError
| UnboundLocalError (name : string)
| UnicodeDecodeError
| OSError.

Inductive outcome (A : Type) : Type :=
| Ret (a : A)
| Raise (e : exn).

Arguments Ret {A} a.
Arguments Raise {A} e.

Definition obind {A B : Type} (c : outcome A) (k : A -> outcome B) : outcome B :=
  match c with
  | Ret a => k a
  | Raise e => Raise e
  end.

Declare Scope py_scope.
Delimit Scope py_scope with py.
Notation "x <- c ;; k" := (obind c (fun x => k))
  (at level 61, c at next level, right associativity) : py_scope.
Local Open Scope py_scope.

(** [l[i]] for a non-negative literal index. *)
Definition index {A : Type} (l : list A) (i : nat) : outcome A :=
  match nth_error l i with
  | Some a => Ret a
  | None => Raise IndexError
  end.

(** [for x in l: body] over a loop state; an exception leaves the loop. *)
Fixpoint for_each {A S : Type} (body : A -> S -> outcome S) (l : list A) (s : S)
  : outcome S :=
  match l with
  | [] => Ret s
  | x :: l' => s' <- body x s ;; for_each body l' s'
  end.

(** *** Interpreter state *)

(** [__PACMAN_BIN] is the module global.  [pacman__pacman_bin] and
    [get_info__pacman_bin] are the default values of the [pacman_bin]
    parameters of [pacman] and [get_info]: Python evaluates a default
    expression once, when the [def] statement runs.  [spawned] lists the
    argument vectors handed to [subprocess.Popen], oldest first. *)
Record interp : Type := {
  __PACMAN_BIN : value;
  pacman__pacman_bin : value;
  get_info__pacman_bin : value;
  spawned : list (list value)
}.

(** *** The operating system *)

(** [popen hist cmd] is what [Popen(cmd)] followed by [communicate()] gives
    after the invocations [hist]: the return code, stdout and stderr. *)
Record env : Type := {
  which : string -> option string;
  isfile : string -> bool;
  popen : list (list value) -> list value -> outcome (Z * list byte * list byte);
  decode : list byte -> option string
}.

Definition M (A : Type) : Type := interp -> outcome A * interp.

Definition ret {A : Type} (a : A) : M A := fun st => (Ret a, st).

Definition raise {A : Type} (x : exn) : M A := fun st => (Raise x, st).

Definition bind {A B : Type} (c : M A) (k : A -> M B) : M B :=
  fun st =>
    match c st with
    | (Ret a, st') => k a st'
    | (Raise x, st') => (Raise x, st')
    end.

Definition lift {A : Type} (c : outcome A) : M A := fun st => (c, st).

Notation "x <~ c ;; k" := (bind c (fun x => k))
  (at level 61, c at next level, right associativity) : py_scope.
Notation "c ;;; k" := (bind c (fun _ => k))
  (at level 61, right associativity) : py_scope.

(** Reading a local variable that no executed statement has bound. *)
Definition local {A : Type} (name : string) (v : option A) : M A :=
  match v with
  | Some a => ret a
  | None => raise (UnboundLocalError name)
  end.

(* ===================================================================== *)
(** ** Data model *)
(* ===================================================================== *)

(** The [upgradable] entry holds [False] or a version string. *)
Inductive upgradable_t : Type :=
| NotUpgradable
| UpgradeTo (v : string).

(** The dicts built by [get_all] and [get_installed].  The key [repo] is
    absent until an available entry sets it. *)
Record package : Type := {
  id : string;
  version : string;
  repo : option string;
  upgradable : upgradable_t;
  installed : bool
}.

(** The dicts built by [get_available]. *)
Record available : Type := {
  a_id : string;
  a_repo : string;
  a_version : string
}.

(** The dict returned by [pacman]. *)
Record result : Type := {
  code : Z;
  stdout : string;
  stderr : string
}.

Definition set_repo (r : string) (p : package) : package :=
  {| id := id p; version := version p; repo := Some r;
     upgradable := upgradable p; installed := installed p |}.

Definition set_upgradable (v : string) (p : package) : package :=
  {| id := id p; version := version p; repo := repo p;
     upgradable := UpgradeTo v; installed := installed p |}.

(** A [dict] with [str] keys, in insertion order. *)
Definition dict (V : Type) : Type := list (string * V).

Fixpoint dict_get {V : Type} (k : string) (d : dict V) : option V :=
  match d with
  | [] => None
  | (k', v) :: d' => if String.eqb k k' then Some v else dict_get k d'
  end.

(** [d[k] = v]: an existing key keeps its position. *)
Fixpoint dict_set {V : Type} (k : string) (v : V) (d : dict V) : dict V :=
  match d with
  | [] => [(k, v)]
  | (k', v') :: d' =>
      if String.eqb k k' then (k', v) :: d' else (k', v') :: dict_set k v d'
  end.

Definition keys {V : Type} (d : dict V) : list string := map fst d.
Definition values {V : Type} (d : dict V) : list V := map snd d.

Definition is_nil {A : Type} (l : list A) : bool :=
  match l with [] => true | _ :: _ => false end.

(** [not x.split()] *)
Definition blank (x : string) : bool := is_nil (PyStr.split_ws x).

Definition lines (s : string) : list string := PyStr.split PyStr.nl None s.

(* ===================================================================== *)
(** ** The module *)
(* ===================================================================== *)

(** What a caller passes as [pkgs]: a bare value or a list of names. *)
Inductive pkgs_arg : Type :=
| PVal (v : value)
| PList (l : list string).

(** Truth value of a [pkgs] argument ([not pkgs] is its negation). *)
Definition truthy_pkgs (p : pkgs_arg) : bool :=
  match p with
  | PVal v => truthy_value v
  | PList l => negb (is_nil l)
  end.

Definition of_which (w : option string) : value :=
  match w with
  | Some p => VStr p
  | None => VNone
  end.

Section Module_.

Variable e : env.

Definition shutil_which (name : string) : value := of_which (which e name).

(** [os.path.isfile] catches [OSError] and [ValueError] only: on [None]
    the [TypeError] of [os.stat] escapes. *)
Definition os_path_isfile (p : value) : outcome bool :=
  match p with
  | VStr s => Ret (isfile e s)
  | VNone => Raise TypeError
  end.

(** Importing the module: [__PACMAN_BIN = shutil.which("pacman")], then the
    [def] statements capture that value as default of [pacman_bin]. *)
Definition import_module : interp :=
  let b := shutil_which "pacman" in
  {| __PACMAN_BIN := b; pacman__pacman_bin := b; get_info__pacman_bin := b;
     spawned := [] |}.

Definition get_bin : M value := fun st => (Ret (__PACMAN_BIN st), st).

Definition assign_PACMAN_BIN (v : value) : M unit :=
  fun st =>
    (Ret tt,
     {| __PACMAN_BIN := v; pacman__pacman_bin := pacman__pacman_bin st;
        get_info__pacman_bin := get_info__pacman_bin st;
        spawned := spawned st |}).

Definition set_bin (path : value) : M unit :=
  match path with
  | VStr p =>
      ok <~ (if isfile e p then ret true
             else lift (os_path_isfile (shutil_which p))) ;;
      if ok then assign_PACMAN_BIN (shutil_which p)
      else raise (IOError "This executable does not exist.")
  | VNone => raise (IOError "This executable does not exist.")
  end.

(** The argument vector [pacman] builds, branch by branch as in the source. *)
Definition build_cmd (pacman_bin : value) (flags : string) (pkgs : pkgs_arg)
           (eflgs : list value) : list value :=
  let cmd :=
    if negb (truthy_pkgs pkgs)
    then [pacman_bin; VStr "--noconfirm"; VStr flags]
    else
      match pkgs with
      | PList l =>
          [pacman_bin; VStr "--noconfirm"; VStr flags]
            ++ map (fun s => VStr (PyStr.quote s)) l
      | PVal v => [pacman_bin; VStr "--noconfirm"; VStr flags; v]
      end in
  if negb (is_nil eflgs) && existsb truthy_value eflgs
  then cmd ++ filter truthy_value eflgs
  else cmd.

Definition record_spawn (cmd : list value) (st : interp) : interp :=
  {| __PACMAN_BIN := __PACMAN_BIN st;
     pacman__pacman_bin := pacman__pacman_bin st;
     get_info__pacman_bin := get_info__pacman_bin st;
     spawned := spawned st ++ [cmd] |}.

Definition bytes_decode (b : list byte) : outcome string :=
  match decode e b with
  | Some s => Ret s
  | None => Raise UnicodeDecodeError
  end.

(** [subprocess.Popen(cmd, ...)] and [p.communicate()]. *)
Definition Popen_communicate (cmd : list value)
  : M (Z * list byte * list byte) :=
  fun st => (popen e (spawned st) cmd, record_spawn cmd st).

(** [pacman(flags, pkgs, eflgs, pacman_bin)]; [pacman_bin = None] here
    means that the caller omits the argument. *)
Definition pacman (flags : string) (pkgs : pkgs_arg) (eflgs : list value)
           (pacman_bin : option value) : M result :=
  fun st =>
    let pacman_bin :=
      match pacman_bin with
      | Some b => b
      | None => pacman__pacman_bin st
      end in
    (data <~ Popen_communicate (build_cmd pacman_bin flags pkgs eflgs) ;;
     let '(returncode, out, err) := data in
     so <~ lift (bytes_decode out) ;;
     se <~ lift (bytes_decode (PyStr.rstrip_lf err)) ;;
     ret {| code := returncode; stdout := so; stderr := se |}) st.

Definition no_pkgs : pkgs_arg := PList [].

Definition failed (s : result) : bool := negb (Z.eqb (code s) 0).

Definition install (packages : pkgs_arg) (needed : bool) : M unit :=
  s <~ pacman "-S" packages [if needed then VStr "--needed" else VNone] None ;;
  if failed s then raise (Exception ("Failed to install: " ++ stderr s))
  else ret tt.

Definition refresh : M unit :=
  s <~ pacman "-Sy" no_pkgs [] None ;;
  if failed s
  then raise (Exception ("Failed to refresh database: " ++ stderr s))
  else ret tt.

(** The local [s] is bound in the [else] branch only. *)
Definition upgrade (packages : pkgs_arg) : M unit :=
  s <~ (if truthy_pkgs packages
        then (install packages true ;;; ret None)
        else (r <~ pacman "-Su" no_pkgs [] None ;; ret (Some r))) ;;
  s <~ local "s" s ;;
  if failed s
  then raise (Exception ("Failed to upgrade packages: " ++ stderr s))
  else ret tt.

Definition remove (packages : pkgs_arg) (purge : bool) : M unit :=
  s <~ pacman ("-Rc" ++ (if purge then "n" else "")) packages [] None ;;
  if failed s then raise (Exception ("Failed to remove: " ++ stderr s))
  else ret tt.

(** One iteration of the loop over the [-Q] lines (the same loop opens
    [get_all] and [get_installed]). *)
Definition installed_row (x : string) (interim : dict package)
  : outcome (dict package) :=
  if blank x then Ret interim
  else
    let x := PyStr.split " " None x in
    x0 <- index x 0 ;;
    x1 <- index x 1 ;;
    Ret (dict_set x0
           {| id := x0; version := x1; repo := None;
              upgradable := NotUpgradable; installed := true |}
           interim).

(** The whole loop: the installed map built from the [-Q] output. *)
Definition installed_map (out : string) : outcome (dict package) :=
  for_each installed_row (lines out) [].

(** One iteration of the loop of [get_all] over the [-Sl] lines; the loop
    state is [interim] and [results]. *)
Definition reconcile_row (x : string) (st : dict package * list package)
  : outcome (dict package * list package) :=
  if blank x then Ret st
  else
    let x := PyStr.split " " None x in
    x1 <- index x 1 ;;
    match dict_get x1 (fst st) with
    | Some r =>
        x0 <- index x 0 ;;
        let r := set_repo x0 r in
        x2 <- index x 2 ;;
        let r := if negb (String.eqb (version r) x2)
                 then set_upgradable x2 r else r in
        Ret (dict_set x1 r (fst st), snd st)
    | None =>
        x0 <- index x 0 ;;
        x2 <- index x 2 ;;
        Ret (fst st,
             snd st ++ [{| id := x1; version := x2; repo := Some x0;
                           upgradable := NotUpgradable; installed := false |}])
    end.

Definition get_all : M (list package) :=
  s <~ pacman "-Q" no_pkgs [] None ;;
  if failed s
  then raise (Exception ("Failed to get installed list: " ++ stderr s))
  else
    interim <~ lift (installed_map (stdout s)) ;;
    s <~ pacman "-Sl" no_pkgs [] None ;;
    if failed s
    then raise (Exception ("Failed to get available list: " ++ stderr s))
    else
      st <~ lift (for_each reconcile_row (lines (stdout s)) (interim, [])) ;;
      ret (snd st ++ values (fst st)).

(** One iteration of the loop of [get_installed] over the [-Qu] lines. *)
Definition upgrade_row (x : string) (interim : dict package)
  : outcome (dict package) :=
  if blank x then Ret interim
  else
    let x := PyStr.split " -> " None x in
    x0 <- index x 0 ;;
    name <- index (PyStr.split " " None x0) 0 ;;
    match dict_get name interim with
    | Some r =>
        x1 <- index x 1 ;;
        Ret (dict_set name (set_upgradable x1 r) interim)
    | None => Ret interim
    end.

Definition get_installed : M (list package) :=
  s <~ pacman "-Q" no_pkgs [] None ;;
  if failed s
  then raise (Exception ("Failed to get installed list: " ++ stderr s))
  else
    interim <~ lift (installed_map (stdout s)) ;;
    s <~ pacman "-Qu" no_pkgs [] None ;;
    if failed s && PyStr.truthy (stderr s)
    then raise (Exception ("Failed to get upgradable list: " ++ stderr s))
    else
      interim <~ lift (for_each upgrade_row (lines (stdout s)) interim) ;;
      ret (values interim).

Definition available_row (x : string) (results : list available)
  : outcome (list available) :=
  if blank x then Ret results
  else
    let x := PyStr.split " " None x in
    x1 <- index x 1 ;;
    x0 <- index x 0 ;;
    x2 <- index x 2 ;;
    Ret (results ++ [{| a_id := x1; a_repo := x0; a_version := x2 |}]).

Definition get_available : M (list available) :=
  s <~ pacman "-Sl" no_pkgs [] None ;;
  if failed s
  then raise (Exception ("Failed to get available list: " ++ stderr s))
  else lift (for_each available_row (lines (stdout s)) []).

Definition is_installed (package : pkgs_arg) : M bool :=
  s <~ pacman "-Q" package [] None ;;
  ret (Z.eqb (code s) 0).

(** [l[-1]] *)
Definition index_last {A : Type} (l : list A) : outcome A :=
  match l with
  | [] => Raise IndexError
  | _ :: _ => index l (pred (List.length l))
  end.

(** One iteration of the loop of [get_info]; [interim] is a list of
    pairs. *)
Definition info_row (x : string) (interim : list (string * string))
  : outcome (list (string * string)) :=
  if blank x then Ret interim
  else if PyStr.contains ":" x then
    let x := PyStr.split ":" (Some 1) x in
    x0 <- index x 0 ;;
    x1 <- index x 1 ;;
    Ret (interim ++ [(PyStr.strip x0, PyStr.strip x1)])
  else
    data <- index_last interim ;;
    let data := (fst data, (snd data ++ "  " ++ PyStr.strip x)%string) in
    Ret (removelast interim ++ [data]).

(** [for x in interim: result[x[0]] = x[1]] *)
Definition to_dict (interim : list (string * string)) : dict string :=
  fold_left (fun result x => dict_set (fst x) (snd x) result) interim [].

Definition get_info (package : pkgs_arg) (pacman_bin : option value)
  : M (dict string) :=
  fun st =>
    let pacman_bin :=
      match pacman_bin with
      | Some b => b
      | None => get_info__pacman_bin st
      end in
    (inst <~ is_installed package ;;
     s <~ pacman (if inst then "-Qi" else "-Si") package [] (Some pacman_bin) ;;
     if failed s then raise (Exception ("Failed to get info: " ++ stderr s))
     else
       interim <~ lift (for_each info_row (lines (stdout s)) []) ;;
       ret (to_dict interim)) st.

Definition needs_for (packages : pkgs_arg) : M (list string) :=
  s <~ pacman "-Sp" packages [VStr "--print-format"; VStr "%n"] None ;;
  if failed s
  then raise (Exception ("Failed to get requirements: " ++ stderr s))
  else ret (filter PyStr.truthy (lines (stdout s))).

Definition depends_for (packages : pkgs_arg) : M (list string) :=
  s <~ pacman "-Rpc" packages [VStr "--print-format"; VStr "%n"] None ;;
  if failed s then raise (Exception ("Failed to get depends: " ++ stderr s))
  else ret (filter PyStr.truthy (lines (stdout s))).

End Module_.

(* ===================================================================== *)
(** ** Concrete environments *)
(* ===================================================================== *)

Module Sample.

Local Open Scope string_scope.

Definition value_eqb (a b : value) : bool :=
  match a, b with
  | VNone, VNone => true
  | VStr s, VStr t => String.eqb s t
  | _, _ => false
  end.

Fixpoint cmd_eqb (a b : list value) : bool :=
  match a, b with
  | [], [] => true
  | x :: a', y :: b' => value_eqb x y && cmd_eqb a' b'
  | _, _ => false
  end.

(** A tool that answers by table: argument vector, then return code,
    stdout and stderr. *)
Definition table : Type := list (list value * (Z * string * string)).

Fixpoint answer (t : table) (cmd : list value)
  : outcome (Z * list byte * list byte) :=
  match t with
  | [] => Raise OSError
  | (c, (rc, o, er)) :: t' =>
      if cmd_eqb c cmd
      then Ret (rc, list_byte_of_string o, list_byte_of_string er)
      else answer t' cmd
  end.

Fixpoint assoc (k : string) (l : list (string * string)) : option string :=
  match l with
  | [] => None
  | (k', v) :: l' => if String.eqb k k' then Some v else assoc k l'
  end.

(** [path] lists what [shutil.which] finds, [files] the regular files. *)
Definition mk_env (path : list (string * string)) (files : list string)
           (t : table) : env :=
  {| which := fun name => assoc name path;
     isfile := fun p => existsb (String.eqb p) files;
     popen := fun _ cmd => answer t cmd;
     decode := fun b => Some (string_of_list_byte b) |}.

Definition bin : value := VStr "/usr/bin/pacman".

Definition argv (flag : string) (rest : list string) : list value :=
  bin :: VStr "--noconfirm" :: VStr flag :: map VStr rest.

Definition system_path : list (string * string) :=
  [("pacman", "/usr/bin/pacman"); ("yay", "/usr/bin/yay");
   ("/usr/bin/pacman", "/usr/bin/pacman"); ("/usr/bin/yay", "/usr/bin/yay")].

Definition system_files : list string :=
  ["/usr/bin/pacman"; "/usr/bin/yay"; "/etc/pacman.conf"].

Definition env_of (t : table) : env := mk_env system_path system_files t.

Definition nl := PyStr.nl.

(** The scenario of the listing: two installed packages, two available. *)
Definition listing : env :=
  env_of
    [(argv "-Q" [], (0%Z, "vim 9.0.1" ++ nl ++ "neovim 0.9.0" ++ nl, ""));
     (argv "-Sl" [],
      (0%Z, "extra vim 9.0.2" ++ nl ++ "community ripgrep 14.0" ++ nl, ""))].

Definition vim : package :=
  {| id := "vim"; version := "9.0.1"; repo := Some "extra";
     upgradable := UpgradeTo "9.0.2"; installed := true |}.

Definition neovim : package :=
  {| id := "neovim"; version := "0.9.0"; repo := None;
     upgradable := NotUpgradable; installed := true |}.

Definition ripgrep : package :=
  {| id := "ripgrep"; version := "14.0"; repo := Some "community";
     upgradable := NotUpgradable; installed := false |}.

End Sample.

Module Faults.

Import Sample.

Local Open Scope string_scope.

(** A system on which [-S vim --needed] succeeds. *)
Definition installing : env :=
  env_of [(argv "-S" ["vim"; "--needed"], (0%Z, "", ""))].

(** A system with an AUR helper next to [pacman]; both answer [-Sy]. *)
Definition with_helper : env :=
  env_of
    [(argv "-Sy" [], (0%Z, "", ""));
     ([VStr "/usr/bin/yay"; VStr "--noconfirm"; VStr "-Sy"], (0%Z, "", ""))].

(** The interpreter after [import pacman] and [set_bin("/usr/bin/yay")]. *)
Definition after_set_bin : interp :=
  snd (set_bin with_helper (VStr "/usr/bin/yay") (import_module with_helper)).

End Faults.

(* ===================================================================== *)
(** ** Vocabulary of the statements *)
(* ===================================================================== *)

(** The lines a parser does not skip. *)
Definition rows (out : string) : list string :=
  filter (fun x => negb (blank x)) (lines out).

(** The space-delimited tokens of a line, as [x.split(' ')] gives them. *)
Definition tokens (x : string) : list string := PyStr.split " " None x.

Definition token (i : nat) (x : string) : string := nth i (tokens x) "".

(** A line carries at least [n] columns. *)
Definition columns (n : nat) (x : string) : Prop := n <= List.length (tokens x).

Definition mem (k : string) (l : list string) : bool :=
  existsb (String.eqb k) l.

Definition seen_step (acc : list string) (k : string) : list string :=
  if mem k acc then acc else acc ++ [k].

(** The distinct elements of a list, each at its first occurrence. *)
Definition first_seen (l : list string) : list string :=
  fold_left seen_step l [].

(** The argument vector as the contract of the process runner words it:
    binary, ["--noconfirm"], the primary flag, the package arguments, the
    extra flags that are not falsy. *)
Definition spec_pkg_tokens (ps : pkgs_arg) : list value :=
  match ps with
  | PList l => map (fun s => VStr (PyStr.quote s)) l
  | PVal v => if truthy_value v then [v] else []
  end.

Definition spec_argv (binary : value) (f : string) (ps : pkgs_arg)
           (es : list value) : list value :=
  [binary; VStr "--noconfirm"; VStr f]
    ++ spec_pkg_tokens ps ++ filter truthy_value es.

(** The binary a call of [pacman] runs: the argument, or the default. *)
Definition chosen_bin (b : option value) (st : interp) : value :=
  match b with
  | Some x => x
  | None => pacman__pacman_bin st
  end.

(** The entry that the loop over the [-Q] lines stores for a line. *)
Definition installed_entry (x : string) : string * package :=
  (token 0 x,
   {| id := token 0 x; version := token 1 x; repo := None;
      upgradable := NotUpgradable; installed := true |}).

(** The assignment [interim[x[0]] = {...}] for a line with two columns. *)
Definition put_installed (d : dict package) (x : string) : dict package :=
  dict_set (fst (installed_entry x)) (snd (installed_entry x)) d.

(** The names on the [-Sl] lines that are not installed, line by line. *)
Definition new_names (installed_names : list string) (out : string)
  : list string :=
  filter (fun n => negb (mem n installed_names)) (map (token 1) (rows out)).

(** The pieces of a [-Qu] line around the arrow, as [x.split(' -> ')]
    gives them. *)
Definition arrow_pieces (x : string) : list string :=
  PyStr.split " -> " None x.

(** Concrete outputs of the tool. *)
Module Inputs.

Import Sample.

Local Open Scope string_scope.

Definition two_installed : string := "vim 9.0.1" ++ nl ++ "neovim 0.9.0" ++ nl.

(** Two lines of the installed list that carry the same name. *)
Definition same_name_twice : string := "vim 9.0.1" ++ nl ++ "vim 9.0.2" ++ nl.

(** An available list whose second line is a single word. *)
Definition short_line : env :=
  env_of
    [(argv "-Q" [], (0%Z, two_installed, ""));
     (argv "-Sl" [], (0%Z, "extra vim 9.0.2" ++ nl ++ "ripgrep" ++ nl, ""))].

(** An available list that offers [foo], which is not installed, from two
    repositories. *)
Definition two_repos : env :=
  env_of
    [(argv "-Q" [], (0%Z, "vim 9.0.1" ++ nl, ""));
     (argv "-Sl" [],
      (0%Z, "core foo 1.0" ++ nl ++ "testing foo 1.1" ++ nl, ""))].

(** The installed list cannot be read; the upgrade list would be empty. *)
Definition broken_db : env :=
  env_of
    [(argv "-Q" [], (1%Z, "", "error: failed to initialize alpm library" ++ nl));
     (argv "-Qu" [], (0%Z, "", ""))].

(** Two installed packages and an empty upgrade list. *)
Definition up_to_date : env :=
  env_of
    [(argv "-Q" [], (0%Z, two_installed, ""));
     (argv "-Qu" [], (0%Z, "", ""))].



End Inputs.

(** The in-place update of a matched installed record by a [-Sl] line. *)
Definition annotate (x : string) (r : package) : package :=
  let r := set_repo (token 0 x) r in
  if negb (String.eqb (version r) (token 2 x))
  then set_upgradable (token 2 x) r else r.

(** The record appended for a [-Sl] line whose name is not installed. *)
Definition available_record (x : string) : package :=
  {| id := token 1 x; version := token 2 x; repo := Some (token 0 x);
     upgradable := NotUpgradable; installed := false |}.

(** One [-Sl] line with three columns, on the loop state of [get_all]. *)
Definition reconcile_step (st : dict package * list package) (x : string)
  : dict package * list package :=
  match dict_get (token 1 x) (fst st) with
  | Some r => (dict_set (token 1 x) (annotate x r) (fst st), snd st)
  | None => (fst st, snd st ++ [available_record x])
  end.

(** One [-Qu] line that has its arrow, on the installed map. *)
Definition upgrade_step (d : dict package) (x : string) : dict package :=
  let name := hd "" (tokens (hd "" (arrow_pieces x))) in
  match dict_get name d with
  | Some r => dict_set name (set_upgradable (nth 1 (arrow_pieces x) "") r) d
  | None => d
  end.

(** A line of an info block is a field line when it has a colon. *)
Definition is_field (x : string) : bool := PyStr.contains ":" x.

(** The pair a field line appends. *)
Definition field_name (x : string) : string :=
  PyStr.strip (hd "" (PyStr.split ":" (Some 1) x)).

Definition field_value (x : string) : string :=
  PyStr.strip (nth 1 (PyStr.split ":" (Some 1) x) "").

(** The names of the field lines, line by line. *)
Definition field_names (ls : list string) : list string :=
  map field_name (filter is_field ls).

(** The first line that is not skipped, if there is one, is a field
    line. *)
Definition field_first (ls : list string) : bool :=
  match filter (fun x => negb (blank x)) ls with
  | [] => true
  | x :: _ => is_field x
  end.

(** The binary a call of [get_info] hands to [pacman]. *)
Definition chosen_info_bin (b : option value) (st : interp) : value :=
  match b with
  | Some x => x
  | None => get_info__pacman_bin st
  end.

(** Every entry of the installed map holds the record of its key. *)
Definition keyed (d : dict package) : Prop :=
  Forall (fun kv => id (snd kv) = fst kv) d.

(* ===================================================================== *)
(** ** The AUR lookup *)
(* ===================================================================== *)

(** [try: body except Exception: handler]; every exception of [exn] is an
    [Exception]. *)
Definition try_except {A : Type} (body : M A) (handler : exn -> M A) : M A :=
  fun st =>
    match body st with
    | (Ret a, st') => (Ret a, st')
    | (Raise x, st') => handler x st'
    end.

Definition aur_url (package : string) : string :=
  ("https://aur.archlinux.org/packages/?O=0&SeB=N&K=" ++ package
   ++ "&outdated=&SB=n&SO=a&PP=50&do_Search=Go")%string.

Definition no_match_marker : string :=
  "No packages matched your search criteria.".

Section Aur.

Variable e : env.

(** [requests.request(method='post', url=...)] followed by [.text]: the
    body of the response, or the exception that the request raises. *)
Variable http_post : string -> outcome string.

Definition is_aur (package : string) : M bool :=
  try_except
    (s <~ pacman e "-Ssq" (PVal (VStr package)) [] (Some (VStr "pacman")) ;;
     if existsb (fun i => String.eqb i package) (lines (stdout s))
     then ret false
     else
       response <~ lift (http_post (aur_url package)) ;;
       if PyStr.contains no_match_marker response then ret false
       else ret true)
    (fun _ => ret false).

End Aur.

(* ===================================================================== *)
(** ** Vocabulary of the further properties *)
(* ===================================================================== *)

(** The configuration of the interpreter is the same in [st'] as in [st],
    and [st'] has spawned what [st] had, and possibly more. *)
Definition keeps_config (st st' : interp) : Prop :=
  __PACMAN_BIN st' = __PACMAN_BIN st
  /\ pacman__pacman_bin st' = pacman__pacman_bin st
  /\ get_info__pacman_bin st' = get_info__pacman_bin st
  /\ exists cmds, spawned st' = spawned st ++ cmds.

(** A computation that never touches the configuration. *)
Definition steady {A : Type} (c : M A) : Prop :=
  forall st, keeps_config st (snd (c st)).

(** The record that [get_available] appends for a line. *)
Definition available_of (x : string) : available :=
  {| a_id := token 1 x; a_repo := token 0 x; a_version := token 2 x |}.

(** The name and the target version of a [-Qu] line. *)
Definition upgrade_name (x : string) : string :=
  hd "" (tokens (hd "" (arrow_pieces x))).


(** The last element of a list that satisfies a test. *)
Definition find_last {A : Type} (f : A -> bool) (l : list A) : option A :=
  find f (rev l).



(** One name per line, each line closed by a newline. *)
Fixpoint unlines (l : list string) : string :=
  match l with
  | [] => EmptyString
  | x :: l' => (x ++ PyStr.nl ++ unlines l')%string
  end.

(** Run in [st] with the argument vector [cmd], the tool exits with
    [code r], prints a stdout that decodes to [stdout r] and a stderr that,
    without its trailing newlines, decodes to [stderr r]. *)
Definition answers (e : env) (st : interp) (cmd : list value) (r : result)
  : Prop :=
  exists o er,
    popen e (spawned st) cmd = Ret (code r, o, er)
    /\ decode e o = Some (stdout r)
    /\ decode e (PyStr.rstrip_lf er) = Some (stderr r).

(** The head of every argument vector of a call that omits [pacman_bin]. *)
Definition base_cmd (st : interp) (flag : string) : list value :=
  [pacman__pacman_bin st; VStr "--noconfirm"; VStr flag].

(** The outcome of an operation that maps a non-zero exit code to an
    exception whose message is [prefix] followed by the captured stderr. *)
Definition checked (prefix : string) (r : result) : outcome unit :=
  if Z.eqb (code r) 0 then Ret tt
  else Raise (Exception (prefix ++ stderr r)%string).

(** Further systems. *)
Module Systems.

Import Sample.

Local Open Scope string_scope.

(** The [-Sl] output of [Sample.listing]. *)
Definition two_available : string :=
  "extra vim 9.0.2" ++ nl ++ "community ripgrep 14.0" ++ nl.

(** [vim] is not installed: removing it fails. *)
Definition removing : env :=
  env_of
    [(argv "-Rcn" ["vim"], (1%Z, "", "error: target not found: vim" ++ nl))].

Definition upgrading : env := env_of [(argv "-Su" [], (0%Z, "", ""))].



(** The info of [vim] is asked from the helper [/usr/bin/yay]. *)
Definition helper_info : env :=
  env_of
    [(argv "-Q" ["vim"], (0%Z, "vim 9.0.1" ++ nl, ""));
     ([VStr "/usr/bin/yay"; VStr "--noconfirm"; VStr "-Qi"; VStr "vim"],
      (0%Z, "Name : vim" ++ nl, ""))].

(** An info output that opens with a line that has no colon. *)
Definition headless : env :=
  env_of
    [(argv "-Q" ["foo"], (1%Z, "", "error: package 'foo' was not found" ++ nl));
     (argv "-Si" ["foo"], (0%Z, "warning" ++ nl ++ "Name : foo" ++ nl, ""))].

(** The official repositories know [vim]; the search exits with 0. *)
Definition official : env :=
  env_of
    [([VStr "pacman"; VStr "--noconfirm"; VStr "-Ssq"; VStr "vim"],
      (0%Z, unlines ["vim"; "vim-runtime"], ""))].

(** A network that is down. *)
Definition offline (url : string) : outcome string := Raise OSError.

End Systems.

(* ===================================================================== *)
(** ** Reading a shell word *)
(* ===================================================================== *)

(** What "shell-escaped" means for one token: a POSIX shell that reads the
    token gets one word, the original string.  The reader below knows the
    three quoting states of the shell; outside quotes it accepts no
    character that the shell treats specially, and inside double quotes it
    accepts none that is still special there. *)
Inductive sh_mode : Type :=
| Bare
| Single
| Double.

Definition sh_special (c : ascii) : bool :=
  existsb (Ascii.eqb c)
    [" "; ascii_of_nat 9; ascii_of_nat 10; "|"; "&"; ";"; "<"; ">"; "("; ")";
     "$"; "`"; "\"; PyStr.dquote; PyStr.squote; "*"; "?"; "["; "#"; "~";
     "!"; "{"; "}"]%char.

Definition sh_special_in_double (c : ascii) : bool :=
  existsb (Ascii.eqb c) ["\"; "$"; "`"]%char.

Fixpoint sh_read (m : sh_mode) (acc : string) (tok : string) : option string :=
  match tok with
  | EmptyString =>
      match m with
      | Bare => Some acc
      | _ => None
      end
  | String c t =>
      match m with
      | Bare =>
          if Ascii.eqb c PyStr.squote then sh_read Single acc t
          else if Ascii.eqb c PyStr.dquote then sh_read Double acc t
          else if sh_special c then None
          else sh_read Bare (PyStr.snoc acc c) t
      | Single =>
          if Ascii.eqb c PyStr.squote then sh_read Bare acc t
          else sh_read Single (PyStr.snoc acc c) t
      | Double =>
          if Ascii.eqb c PyStr.dquote then sh_read Bare acc t
          else if sh_special_in_double c then None
          else sh_read Double (PyStr.snoc acc c) t
      end
  end.

(** The word that the shell reads from a token; an empty token is no
    word. *)
Definition sh_word (tok : string) : option string :=
  if PyStr.is_empty tok then None else sh_read Bare "" tok.

(** Case analysis on the first three columns of a line. *)
Ltac by_columns x :=
  unfold index, tokens in *;
  destruct (PyStr.split " " None x) as [|?t [|?t [|?t ?ts]]];
  simpl in *; try lia; eauto.

(* ===================================================================== *)
(** ** Properties *)
(* ===================================================================== *)

Example split_nl_ex :
  PyStr.split PyStr.nl None ("a b" ++ PyStr.nl ++ PyStr.nl ++ "c" ++ PyStr.nl)
  = ["a b"; ""; "c"; ""].
Proof. reflexivity. Qed.

Example split_arrow_ex :
  PyStr.split " -> " None "vim 9.0 -> 9.1" = ["vim 9.0"; "9.1"].
Proof. reflexivity. Qed.

Example split_overlap_ex : PyStr.split "aa" None "aaa" = [""; "a"].
Proof. reflexivity. Qed.

Example split_colon_ex :
  PyStr.split ":" (Some 1) "Name  : a:b" = ["Name  "; " a:b"].
Proof. reflexivity. Qed.

Example split_space_ex : PyStr.split " " None "a  b" = ["a"; ""; "b"].
Proof. reflexivity. Qed.

Example quote_ex : PyStr.quote "a b" = "'a b'" /\ PyStr.quote "vim" = "vim".
Proof. split; reflexivity. Qed.

(** *** The monad *)

Lemma bind_Ret {A B : Type} (c : M A) (k : A -> M B) st a st' :
  c st = (Ret a, st') -> bind c k st = k a st'.
Proof. intros H. unfold bind. rewrite H. reflexivity. Qed.

Lemma bind_Raise {A B : Type} (c : M A) (k : A -> M B) st x st' :
  c st = (Raise x, st') -> bind c k st = (Raise x, st').
Proof. intros H. unfold bind. rewrite H. reflexivity. Qed.

Lemma failed_zero (r : result) : code r = 0%Z -> failed r = false.
Proof. intros H. unfold failed. rewrite H. reflexivity. Qed.

(** *** The process runner *)

Lemma build_cmd_spec (b : value) (f : string) (ps : pkgs_arg) (es : list value) :
  build_cmd b f ps es = spec_argv b f ps es.
Proof.
  unfold build_cmd, spec_argv.
  assert (Hes : (if negb (is_nil es) && existsb truthy_value es
                 then filter truthy_value es else []) = filter truthy_value es).
  { destruct (existsb truthy_value es) eqn:Hex.
    - destruct es; [discriminate | reflexivity].
    - rewrite andb_false_r. symmetry.
      induction es as [|v es IH]; [reflexivity|].
      simpl in Hex |- *. apply orb_false_iff in Hex as [Hv Hes].
      rewrite Hv. apply IH, Hes. }
  assert (Hps : (if negb (truthy_pkgs ps)
                 then [b; VStr "--noconfirm"; VStr f]
                 else match ps with
                      | PList l => [b; VStr "--noconfirm"; VStr f]
                                     ++ map (fun s => VStr (PyStr.quote s)) l
                      | PVal v => [b; VStr "--noconfirm"; VStr f; v]
                      end)
                = [b; VStr "--noconfirm"; VStr f] ++ spec_pkg_tokens ps).
  { destruct ps as [v|l]; simpl.
    - destruct (truthy_value v); reflexivity.
    - destruct l; reflexivity. }
  rewrite Hps.
  destruct (negb (is_nil es) && existsb truthy_value es) eqn:Hc.
  - rewrite <- app_assoc. reflexivity.
  - rewrite <- Hes, app_nil_r. reflexivity.
Qed.

(** *** The listing scenario *)

(** C1. When [-Q] exits 0 with the two lines [vim 9.0.1] and
    [neovim 0.9.0], and [-Sl] exits 0 with the two lines [extra vim 9.0.2]
    and [community ripgrep 14.0], [get_all] returns exactly the records of
    vim (repo extra, upgradable to 9.0.2, installed), neovim (no repo, not
    upgradable, installed) and ripgrep (repo community, not upgradable, not
    installed), in some order. *)
Theorem get_all_scenario (e : env) (st st1 st2 : interp) (err1 err2 : string) :
  pacman e "-Q" no_pkgs [] None st
  = (Ret {| code := 0;
            stdout := "vim 9.0.1" ++ PyStr.nl ++ "neovim 0.9.0" ++ PyStr.nl;
            stderr := err1 |}, st1) ->
  pacman e "-Sl" no_pkgs [] None st1
  = (Ret {| code := 0;
            stdout := "extra vim 9.0.2" ++ PyStr.nl
                      ++ "community ripgrep 14.0" ++ PyStr.nl;
            stderr := err2 |}, st2) ->
  exists l,
    get_all e st = (Ret l, st2)
    /\ Permutation l [Sample.vim; Sample.neovim; Sample.ripgrep].
Proof.
  intros HQ HSl.
  exists [Sample.ripgrep; Sample.vim; Sample.neovim]. split.
  - unfold get_all. rewrite (bind_Ret _ _ _ _ _ HQ). cbv beta.
    rewrite failed_zero by reflexivity. cbn [stdout].
    erewrite bind_Ret by (unfold lift; vm_compute; reflexivity).
    rewrite (bind_Ret _ _ _ _ _ HSl).
    rewrite failed_zero by reflexivity. cbn [stdout].
    erewrite bind_Ret by (unfold lift; vm_compute; reflexivity).
    reflexivity.
  - apply Permutation_sym.
    change [Sample.vim; Sample.neovim; Sample.ripgrep]
      with ([Sample.vim; Sample.neovim] ++ [Sample.ripgrep]).
    apply (Permutation_app_comm [Sample.vim; Sample.neovim] [Sample.ripgrep]).
Qed.

Lemma get_all_scenario_witness :
  exists l,
    get_all Sample.listing (import_module Sample.listing)
    = (Ret l, snd (get_all Sample.listing (import_module Sample.listing)))
    /\ Permutation l [Sample.vim; Sample.neovim; Sample.ripgrep].
Proof.
  apply (get_all_scenario Sample.listing (import_module Sample.listing)
           (snd (pacman Sample.listing "-Q" no_pkgs [] None
                   (import_module Sample.listing)))
           _ "" "").
  - vm_compute. reflexivity.
  - vm_compute. reflexivity.
Defined.

(** *** Faults of the source *)

(** Whatever the packages, a successful [install] leaves [upgrade] with an
    unbound [s]; a failing one propagates its exception. *)
Lemma upgrade_after_install (e : env) (packages : pkgs_arg) (st st' : interp) :
  truthy_pkgs packages = true ->
  (install e packages true st = (Ret tt, st') ->
   upgrade e packages st = (Raise (UnboundLocalError "s"), st'))
  /\ (forall x, install e packages true st = (Raise x, st') ->
                upgrade e packages st = (Raise x, st')).
Proof.
  intros Ht. unfold upgrade. rewrite Ht. split.
  - intros H. unfold bind at 1. unfold bind at 1. rewrite H. reflexivity.
  - intros x H. unfold bind at 1. unfold bind at 1. rewrite H. reflexivity.
Qed.

(** [set_bin] assigns the global only; a call of [pacman] that omits
    [pacman_bin] starts its argument vector with the captured default. *)
Lemma set_bin_keeps_defaults (e : env) (path : value) (st : interp) :
  pacman__pacman_bin (snd (set_bin e path st)) = pacman__pacman_bin st
  /\ get_info__pacman_bin (snd (set_bin e path st)) = get_info__pacman_bin st.
Proof.
  unfold set_bin. destruct path as [|p]; [split; reflexivity|].
  unfold bind, ret, lift, raise, assign_PACMAN_BIN.
  destruct (isfile e p); simpl.
  - split; reflexivity.
  - destruct (os_path_isfile e (shutil_which e p)) as [[|]|x]; split; reflexivity.
Qed.

Lemma pacman_default_binary (e : env) (f : string) (ps : pkgs_arg)
      (es : list value) (st : interp) :
  exists rest,
    spawned (snd (pacman e f ps es None st))
    = spawned st ++ [pacman__pacman_bin st :: rest].
Proof.
  exists (VStr "--noconfirm" :: VStr f :: spec_pkg_tokens ps ++ filter truthy_value es).
  unfold pacman, bind, Popen_communicate, lift, ret. rewrite build_cmd_spec.
  unfold spec_argv. simpl app.
  destruct (popen e (spawned st) _) as [[[rc o] er]|x]; simpl;
    [destruct (bytes_decode e o) as [so|x]; simpl;
     [destruct (bytes_decode e (PyStr.rstrip_lf er)); simpl|]|];
    reflexivity.
Qed.

(** C2. [upgrade(["vim"])] on a system where the install invocation exits
    with code 0: [install] returns, and the test of [s["code"]] that follows
    reads a local that was never bound. *)
Theorem upgrade_packages_unbound_local :
  install Faults.installing (PList ["vim"]) true
    (import_module Faults.installing)
  = (Ret tt,
     record_spawn (Sample.argv "-S" ["vim"; "--needed"])
       (import_module Faults.installing))
  /\ upgrade Faults.installing (PList ["vim"]) (import_module Faults.installing)
     = (Raise (UnboundLocalError "s"),
        record_spawn (Sample.argv "-S" ["vim"; "--needed"])
          (import_module Faults.installing)).
Proof. split; vm_compute; reflexivity. Qed.

(** C3. After [import pacman] on a system whose [pacman] is
    [/usr/bin/pacman], [set_bin("/usr/bin/yay")] succeeds and [get_bin]
    answers [/usr/bin/yay]; the [refresh()] that follows still spawns
    [/usr/bin/pacman]: [pacman] reads the default that its [def] captured,
    not the global. *)
Theorem set_bin_not_read_by_pacman :
  fst (set_bin Faults.with_helper (VStr "/usr/bin/yay")
         (import_module Faults.with_helper)) = Ret tt
  /\ fst (get_bin Faults.after_set_bin) = Ret (VStr "/usr/bin/yay")
  /\ refresh Faults.with_helper Faults.after_set_bin
     = (Ret tt,
        record_spawn
          [VStr "/usr/bin/pacman"; VStr "--noconfirm"; VStr "-Sy"]
          Faults.after_set_bin).
Proof. repeat split; vm_compute; reflexivity. Qed.

(** C8. [set_bin("nosuchtool")], a name that is no file and that
    [shutil.which] cannot locate: [os.path.isfile(None)] raises [TypeError]
    before the [IOError] of the [else] branch is reached.  And
    [set_bin("/etc/pacman.conf")], a regular file that is not executable,
    raises nothing and stores [None]. *)
Theorem set_bin_unresolved_argument :
  set_bin Faults.with_helper (VStr "nosuchtool")
    (import_module Faults.with_helper)
  = (Raise TypeError, import_module Faults.with_helper)
  /\ which Faults.with_helper "/etc/pacman.conf" = None
  /\ fst (set_bin Faults.with_helper (VStr "/etc/pacman.conf")
            (import_module Faults.with_helper)) = Ret tt
  /\ __PACMAN_BIN (snd (set_bin Faults.with_helper (VStr "/etc/pacman.conf")
                          (import_module Faults.with_helper))) = VNone.
Proof. repeat split; vm_compute; reflexivity. Qed.

(** *** Dictionaries *)

Section Dict.

Context {V : Type}.

Lemma mem_In (k : string) (l : list string) : mem k l = true <-> In k l.
Proof.
  unfold mem. rewrite existsb_exists. split.
  - intros [x [Hx Hk]]. apply String.eqb_eq in Hk. subst. exact Hx.
  - intros H. exists k. split; [exact H | apply String.eqb_refl].
Qed.

Lemma mem_app (k : string) (l1 l2 : list string) :
  mem k (l1 ++ l2) = mem k l1 || mem k l2.
Proof. unfold mem. apply existsb_app. Qed.

Lemma dict_get_mem (k : string) (d : dict V) :
  mem k (keys d) = match dict_get k d with Some _ => true | None => false end.
Proof.
  induction d as [|[k' v] d IH]; [reflexivity|].
  simpl. destruct (String.eqb k k'); [reflexivity | exact IH].
Qed.

Lemma dict_get_set_same (k : string) (v : V) (d : dict V) :
  dict_get k (dict_set k v d) = Some v.
Proof.
  induction d as [|[k' v'] d IH]; simpl.
  - rewrite String.eqb_refl. reflexivity.
  - destruct (String.eqb k k') eqn:E; simpl; rewrite E; [reflexivity | exact IH].
Qed.

Lemma dict_get_set_other (k k' : string) (v : V) (d : dict V) :
  k <> k' -> dict_get k' (dict_set k v d) = dict_get k' d.
Proof.
  intros Hne. induction d as [|[k0 v0] d IH]; simpl.
  - destruct (String.eqb_spec k' k); [congruence | reflexivity].
  - destruct (String.eqb_spec k k0); simpl.
    + subst k0. destruct (String.eqb_spec k' k); [congruence | reflexivity].
    + rewrite IH. reflexivity.
Qed.

Lemma keys_dict_set (k : string) (v : V) (d : dict V) :
  keys (dict_set k v d) = if mem k (keys d) then keys d else keys d ++ [k].
Proof.
  unfold keys. induction d as [|[k' v'] d IH]; [reflexivity|].
  simpl. destruct (String.eqb k k') eqn:E; simpl; [reflexivity|].
  rewrite IH.
  destruct (mem k (map fst d)); reflexivity.
Qed.

Lemma values_dict_set_Forall (P : V -> Prop) (k : string) (v : V) (d : dict V) :
  P v -> Forall P (values d) -> Forall P (values (dict_set k v d)).
Proof.
  intros Hv. induction d as [|[k' v'] d IH]; simpl; intros Hd.
  - constructor; [exact Hv | constructor].
  - inversion Hd; subst.
    destruct (String.eqb k k'); simpl; constructor; auto.
Qed.

Lemma dict_set_fresh (k : string) (v : V) (d : dict V) :
  mem k (keys d) = false -> dict_set k v d = d ++ [(k, v)].
Proof.
  induction d as [|[k' v'] d IH]; [reflexivity|].
  simpl. destruct (String.eqb k k'); simpl; [discriminate|].
  intros H. rewrite (IH H). reflexivity.
Qed.

End Dict.

(** *** First occurrences *)

Lemma first_seen_fold (l : list string) :
  first_seen l = fold_left seen_step l [].
Proof. reflexivity. Qed.

Lemma seen_fold_NoDup (l acc : list string) :
  NoDup (acc ++ l) -> fold_left seen_step l acc = acc ++ l.
Proof.
  revert acc. induction l as [|k l IH]; intros acc H; simpl.
  - rewrite app_nil_r. reflexivity.
  - unfold seen_step at 2.
    destruct (mem k acc) eqn:Hm.
    + apply mem_In in Hm. apply NoDup_remove_2 in H.
      exfalso. apply H. apply in_or_app. left. exact Hm.
    + rewrite IH; rewrite <- app_assoc; [reflexivity | exact H].
Qed.

Lemma first_seen_NoDup (l : list string) : NoDup l -> first_seen l = l.
Proof. intros H. rewrite first_seen_fold. apply (seen_fold_NoDup l []). exact H. Qed.

Lemma seen_fold_spec (l acc : list string) :
  NoDup acc ->
  NoDup (fold_left seen_step l acc)
  /\ (forall k, In k (fold_left seen_step l acc) <-> In k acc \/ In k l).
Proof.
  revert acc. induction l as [|k l IH]; intros acc Hacc; simpl.
  - split; [exact Hacc | intros k; tauto].
  - assert (Hstep : NoDup (seen_step acc k)).
    { unfold seen_step. destruct (mem k acc) eqn:Hm; [exact Hacc|].
      apply NoDup_app; [exact Hacc | repeat constructor; simpl; tauto |].
      intros a Ha [Hk|[]]. subst a. apply mem_In in Ha. congruence. }
    destruct (IH _ Hstep) as [Hnd Hin]. split; [exact Hnd|].
    intros k0. rewrite Hin. unfold seen_step.
    destruct (mem k acc) eqn:Hm.
    + apply mem_In in Hm. split; intros [H|H]; auto.
      destruct H as [H|H]; [subst; auto | auto].
    + rewrite in_app_iff. simpl. tauto.
Qed.

Lemma first_seen_NoDup_out (l : list string) : NoDup (first_seen l).
Proof. apply (seen_fold_spec l []). constructor. Qed.

Lemma first_seen_In (l : list string) (k : string) :
  In k (first_seen l) <-> In k l.
Proof.
  rewrite first_seen_fold.
  destruct (seen_fold_spec l [] (NoDup_nil _)) as [_ H].
  rewrite H. simpl. tauto.
Qed.

(** *** Loops *)


Lemma for_each_filter {A S : Type} (body : A -> S -> outcome S)
      (keep : A -> bool) (l : list A) (s : S) :
  (forall x s0, keep x = false -> body x s0 = Ret s0) ->
  for_each body l s = for_each body (filter keep l) s.
Proof.
  intros Hskip. revert s. induction l as [|x l IH]; intros s; simpl; [reflexivity|].
  destruct (keep x) eqn:Hk; simpl.
  - destruct (body x s); simpl; [apply IH | reflexivity].
  - rewrite (Hskip x s Hk). simpl. apply IH.
Qed.

(** A loop whose body steps by a total function on the kept elements. *)
Lemma for_each_fold {A S : Type} (body : A -> S -> outcome S)
      (step : S -> A -> S) (l : list A) (s : S) :
  (forall x s0, In x l -> body x s0 = Ret (step s0 x)) ->
  for_each body l s = Ret (fold_left step l s).
Proof.
  revert s. induction l as [|x l IH]; intros s H; simpl; [reflexivity|].
  rewrite (H x s (or_introl eq_refl)). simpl. apply IH.
  intros y s0 Hy. apply H. right. exact Hy.
Qed.

(** A loop whose body can raise [IndexError] only ends with [IndexError]
    as soon as one element makes the body raise in every state. *)
Lemma for_each_index_error {A S : Type} (body : A -> S -> outcome S)
      (l : list A) (x : A) (s : S) :
  (forall y s0, (exists s1, body y s0 = Ret s1) \/ body y s0 = Raise IndexError) ->
  In x l ->
  (forall s0, body x s0 = Raise IndexError) ->
  for_each body l s = Raise IndexError.
Proof.
  intros Honly Hin Hx. revert s.
  induction l as [|y l IH]; intros s; [contradiction|].
  simpl. destruct (Honly y s) as [[s1 Hy]|Hy]; rewrite Hy; simpl; [|reflexivity].
  destruct Hin as [->|Hin].
  - rewrite Hx in Hy. discriminate.
  - apply IH. exact Hin.
Qed.

(** *** The installed map *)

Lemma installed_row_ok (x : string) (d : dict package) :
  blank x = false -> columns 2 x ->
  installed_row x d = Ret (put_installed d x).
Proof.
  intros Hb Hc. unfold installed_row. rewrite Hb.
  unfold put_installed, installed_entry, token, columns, tokens in *.
  destruct (PyStr.split " " None x) as [|t0 [|t1 ts]]; simpl in Hc; try lia.
  reflexivity.
Qed.

Lemma installed_row_blank (x : string) (d : dict package) :
  negb (blank x) = false -> installed_row x d = Ret d.
Proof.
  intros H. apply negb_false_iff in H. unfold installed_row. rewrite H.
  reflexivity.
Qed.

Lemma rows_not_blank (out x : string) : In x (rows out) -> blank x = false.
Proof.
  unfold rows. rewrite filter_In. intros [_ H]. apply negb_true_iff. exact H.
Qed.

Lemma installed_map_fold (out : string) :
  Forall (columns 2) (rows out) ->
  installed_map out = Ret (fold_left put_installed (rows out) []).
Proof.
  intros Hwf. unfold installed_map.
  rewrite (for_each_filter installed_row (fun x => negb (blank x)))
    by (intros; apply installed_row_blank; assumption).
  fold (rows out). apply for_each_fold.
  intros x s0 Hx. apply installed_row_ok.
  - apply (rows_not_blank out). exact Hx.
  - rewrite Forall_forall in Hwf. apply Hwf. exact Hx.
Qed.

Lemma keys_put_installed (l : list string) (d : dict package) :
  keys (fold_left put_installed l d)
  = fold_left seen_step (map (token 0) l) (keys d).
Proof.
  revert d. induction l as [|x l IH]; intros d; [reflexivity|].
  simpl. rewrite IH. f_equal. unfold put_installed. apply keys_dict_set.
Qed.

Lemma put_installed_fresh (l : list string) (d : dict package) :
  NoDup (keys d ++ map (token 0) l) ->
  fold_left put_installed l d = d ++ map installed_entry l.
Proof.
  revert d. induction l as [|x l IH]; intros d H; simpl.
  - rewrite app_nil_r. reflexivity.
  - assert (Hm : mem (token 0 x) (keys d) = false).
    { destruct (mem (token 0 x) (keys d)) eqn:Hm; [|reflexivity].
      apply mem_In in Hm. apply NoDup_remove_2 in H.
      exfalso. apply H. apply in_or_app. left. exact Hm. }
    replace (put_installed d x) with (d ++ [installed_entry x])
      by (symmetry; apply (dict_set_fresh _ _ _ Hm)).
    rewrite IH.
    + rewrite <- app_assoc. reflexivity.
    + unfold keys. rewrite map_app. simpl. rewrite <- app_assoc. exact H.
Qed.

(** C9, as amended.  When every non-blank line of the [-Q] output carries a
    name and a version, the installed map has one entry per distinct first
    token, in order of first occurrence; when the first tokens of the [N]
    lines are pairwise distinct, it has exactly [N] entries, the entry of
    each line keyed by the first token of that line. *)
Theorem installed_map_entries (out : string) :
  Forall (columns 2) (rows out) ->
  exists d,
    installed_map out = Ret d
    /\ keys d = first_seen (map (token 0) (rows out))
    /\ (NoDup (map (token 0) (rows out)) ->
        d = map installed_entry (rows out)
        /\ List.length d = List.length (rows out)
        /\ keys d = map (token 0) (rows out)).
Proof.
  intros Hwf. exists (fold_left put_installed (rows out) []).
  split; [apply installed_map_fold; exact Hwf|].
  split; [apply keys_put_installed|].
  intros Hnd.
  assert (E : fold_left put_installed (rows out) [] = map installed_entry (rows out)).
  { apply (put_installed_fresh (rows out) []). exact Hnd. }
  rewrite E. split; [reflexivity|]. split.
  - apply length_map.
  - unfold keys. rewrite map_map. reflexivity.
Qed.

Lemma installed_map_entries_witness :
  exists d,
    installed_map Inputs.two_installed = Ret d
    /\ keys d = first_seen (map (token 0) (rows Inputs.two_installed))
    /\ (NoDup (map (token 0) (rows Inputs.two_installed)) ->
        d = map installed_entry (rows Inputs.two_installed)
        /\ List.length d = List.length (rows Inputs.two_installed)
        /\ keys d = map (token 0) (rows Inputs.two_installed)).
Proof.
  apply (installed_map_entries Inputs.two_installed).
  vm_compute. repeat constructor.
Defined.

(** C9, the claim as stated fails: two well-formed lines with the same
    name give a map of one entry. *)
Lemma installed_map_same_name_twice :
  Forall (columns 2) (rows Inputs.same_name_twice)
  /\ List.length (rows Inputs.same_name_twice) = 2
  /\ exists d,
       installed_map Inputs.same_name_twice = Ret d
       /\ List.length d = 1
       /\ List.length d <> List.length (rows Inputs.same_name_twice).
Proof.
  split; [vm_compute; repeat constructor|].
  split; [reflexivity|].
  eexists. split; [vm_compute; reflexivity|].
  split; [reflexivity | vm_compute; discriminate].
Qed.

(** *** Short lines *)

Lemma installed_row_only_index_error (x : string) (d : dict package) :
  (exists d', installed_row x d = Ret d') \/ installed_row x d = Raise IndexError.
Proof.
  unfold installed_row. destruct (blank x); [eauto|]. by_columns x.
Qed.

Lemma available_row_only_index_error (x : string) (l : list available) :
  (exists l', available_row x l = Ret l') \/ available_row x l = Raise IndexError.
Proof.
  unfold available_row. destruct (blank x); [eauto|]. by_columns x.
Qed.

Lemma reconcile_row_only_index_error (x : string) (st : dict package * list package) :
  (exists st', reconcile_row x st = Ret st') \/ reconcile_row x st = Raise IndexError.
Proof.
  unfold reconcile_row. destruct (blank x); [eauto|].
  unfold index, tokens.
  destruct (PyStr.split " " None x) as [|t0 [|t1 [|t2 ts]]]; simpl; eauto;
    destruct (dict_get t1 (fst st)); simpl; eauto.
Qed.

Lemma available_row_short (x : string) (l : list available) :
  blank x = false -> List.length (tokens x) < 3 ->
  available_row x l = Raise IndexError.
Proof.
  intros Hb Hc. unfold available_row. rewrite Hb. by_columns x.
Qed.

Lemma reconcile_row_short (x : string) (st : dict package * list package) :
  blank x = false -> List.length (tokens x) < 3 ->
  reconcile_row x st = Raise IndexError.
Proof.
  intros Hb Hc. unfold reconcile_row. rewrite Hb.
  unfold index, tokens in *.
  destruct (PyStr.split " " None x) as [|t0 [|t1 [|t2 ts]]]; simpl in *;
    try lia; try reflexivity.
  destruct (dict_get t1 (fst st)); reflexivity.
Qed.

Lemma for_each_only_index_error {A S : Type} (body : A -> S -> outcome S)
      (l : list A) (s : S) :
  (forall y s0, (exists s1, body y s0 = Ret s1) \/ body y s0 = Raise IndexError) ->
  (exists s', for_each body l s = Ret s') \/ for_each body l s = Raise IndexError.
Proof.
  intros Honly. revert s. induction l as [|y l IH]; intros s; simpl; [eauto|].
  destruct (Honly y s) as [[s1 Hy]|Hy]; rewrite Hy; simpl; [apply IH | right; reflexivity].
Qed.

Lemma rows_lines (out x : string) : In x (rows out) -> In x (lines out).
Proof. unfold rows. rewrite filter_In. tauto. Qed.

(** C10. A non-blank [-Sl] line with fewer than three space-separated
    tokens makes [get_available] and [get_all] raise [IndexError]: the line
    is neither skipped nor turned into a partial record. *)
Theorem short_available_line_raises (e : env) (x : string)
        (sa sa' st st1 st2 : interp) (r1 r2 : result) :
  pacman e "-Sl" no_pkgs [] None sa = (Ret r2, sa') ->
  pacman e "-Q" no_pkgs [] None st = (Ret r1, st1) ->
  pacman e "-Sl" no_pkgs [] None st1 = (Ret r2, st2) ->
  code r1 = 0%Z -> code r2 = 0%Z ->
  In x (rows (stdout r2)) ->
  List.length (tokens x) < 3 ->
  get_available e sa = (Raise IndexError, sa')
  /\ fst (get_all e st) = Raise IndexError.
Proof.
  intros Ha HQ HSl H1 H2 Hx Hshort.
  assert (Hb : blank x = false) by (apply (rows_not_blank _ _ Hx)).
  apply rows_lines in Hx. split.
  - unfold get_available. rewrite (bind_Ret _ _ _ _ _ Ha).
    rewrite (failed_zero _ H2). unfold lift. f_equal.
    apply (for_each_index_error _ _ x); auto.
    + intros; apply available_row_only_index_error.
    + intros; apply available_row_short; assumption.
  - unfold get_all. rewrite (bind_Ret _ _ _ _ _ HQ).
    rewrite (failed_zero _ H1). unfold bind at 1, lift.
    destruct (for_each_only_index_error installed_row (lines (stdout r1)) []
                installed_row_only_index_error) as [[d Hd]|Hd];
      unfold installed_map; rewrite Hd; [|reflexivity].
    rewrite (bind_Ret _ _ _ _ _ HSl). rewrite (failed_zero _ H2).
    unfold bind, lift.
    rewrite (for_each_index_error reconcile_row _ x); auto.
    + intros; apply reconcile_row_only_index_error.
    + intros; apply reconcile_row_short; assumption.
Qed.

Lemma short_available_line_raises_witness :
  get_available Inputs.short_line (import_module Inputs.short_line)
  = (Raise IndexError,
     record_spawn (Sample.argv "-Sl" []) (import_module Inputs.short_line))
  /\ fst (get_all Inputs.short_line (import_module Inputs.short_line))
     = Raise IndexError.
Proof.
  apply (short_available_line_raises Inputs.short_line "ripgrep"
           (import_module Inputs.short_line) _
           (import_module Inputs.short_line)
           (record_spawn (Sample.argv "-Q" []) (import_module Inputs.short_line))
           (record_spawn (Sample.argv "-Sl" [])
              (record_spawn (Sample.argv "-Q" [])
                 (import_module Inputs.short_line)))
           {| code := 0; stdout := Inputs.two_installed; stderr := "" |}
           {| code := 0;
              stdout := "extra vim 9.0.2" ++ PyStr.nl ++ "ripgrep" ++ PyStr.nl;
              stderr := "" |}).
  - vm_compute. reflexivity.
  - vm_compute. reflexivity.
  - vm_compute. reflexivity.
  - reflexivity.
  - reflexivity.
  - vm_compute. right. left. reflexivity.
  - vm_compute. lia.
Defined.

(** *** Reconciliation *)

Lemma reconcile_row_ok (x : string) (st : dict package * list package) :
  blank x = false -> columns 3 x ->
  reconcile_row x st = Ret (reconcile_step st x).
Proof.
  intros Hb Hc. unfold reconcile_row, reconcile_step, annotate, available_record.
  rewrite Hb. unfold token, columns, tokens, index in *.
  destruct (PyStr.split " " None x) as [|t0 [|t1 [|t2 ts]]]; simpl in Hc; try lia.
  simpl. destruct (dict_get t1 (fst st)); reflexivity.
Qed.

Lemma reconcile_row_blank (x : string) (st : dict package * list package) :
  negb (blank x) = false -> reconcile_row x st = Ret st.
Proof.
  intros H. apply negb_false_iff in H. unfold reconcile_row. rewrite H.
  reflexivity.
Qed.

Lemma reconcile_fold (out : string) (st : dict package * list package) :
  Forall (columns 3) (rows out) ->
  for_each reconcile_row (lines out) st
  = Ret (fold_left reconcile_step (rows out) st).
Proof.
  intros Hwf.
  rewrite (for_each_filter reconcile_row (fun x => negb (blank x)))
    by (intros; apply reconcile_row_blank; assumption).
  fold (rows out). apply for_each_fold.
  intros x s0 Hx. apply reconcile_row_ok.
  - apply (rows_not_blank out). exact Hx.
  - rewrite Forall_forall in Hwf. apply Hwf. exact Hx.
Qed.

Lemma keyed_get (d : dict package) (k : string) (r : package) :
  keyed d -> dict_get k d = Some r -> id r = k.
Proof.
  unfold keyed. induction d as [|[k' v] d IH]; simpl; intros Hk Hg; [discriminate|].
  inversion Hk; subst. destruct (String.eqb_spec k k').
  - inversion Hg; subst. assumption.
  - apply IH; assumption.
Qed.

Lemma keyed_set (d : dict package) (k : string) (r : package) :
  keyed d -> id r = k -> keyed (dict_set k r d).
Proof.
  unfold keyed. intros Hk Hr. induction d as [|[k' v] d IH]; simpl.
  - constructor; [exact Hr | constructor].
  - inversion Hk as [|kv0 d0 Hh Ht]. simpl in Hh.
    destruct (String.eqb_spec k k'); constructor; auto.
    simpl. congruence.
Qed.

Lemma keyed_values (d : dict package) : keyed d -> map id (values d) = keys d.
Proof.
  unfold keyed, values, keys. induction 1 as [|kv d H _ IH]; simpl; [reflexivity|].
  rewrite H, IH. reflexivity.
Qed.

Lemma keyed_installed (l : list string) (d : dict package) :
  keyed d -> keyed (fold_left put_installed l d).
Proof.
  revert d. induction l as [|x l IH]; intros d Hd; simpl; [exact Hd|].
  apply IH. unfold put_installed. apply keyed_set; [exact Hd | reflexivity].
Qed.

Lemma id_annotate (x : string) (r : package) : id (annotate x r) = id r.
Proof.
  unfold annotate. simpl.
  destruct (negb (String.eqb (version r) (token 2 x))); reflexivity.
Qed.

(** What the loop over the [-Sl] lines leaves: the keys of the installed
    map, and the ids of the appended records. *)
Lemma reconcile_fold_spec (rs : list string) (d : dict package) (res : list package) :
  keyed d ->
  let st := fold_left reconcile_step rs (d, res) in
  keyed (fst st)
  /\ keys (fst st) = keys d
  /\ map id (snd st)
     = map id res
         ++ filter (fun n => negb (mem n (keys d))) (map (token 1) rs).
Proof.
  revert d res. induction rs as [|x rs IH]; intros d res Hd; simpl.
  - rewrite app_nil_r. auto.
  - unfold reconcile_step at 2 4 6. simpl fst. simpl snd.
    rewrite (dict_get_mem (token 1 x) d).
    destruct (dict_get (token 1 x) d) as [r|] eqn:Hg; simpl negb; cbv iota.
    + assert (Hk : keyed (dict_set (token 1 x) (annotate x r) d)).
      { apply keyed_set; [exact Hd|]. rewrite id_annotate.
        apply (keyed_get d); assumption. }
      assert (Hkeys : keys (dict_set (token 1 x) (annotate x r) d) = keys d).
      { rewrite keys_dict_set, dict_get_mem, Hg. reflexivity. }
      destruct (IH _ res Hk) as [H1 [H2 H3]].
      rewrite Hkeys in H2, H3. auto.
    + destruct (IH d (res ++ [available_record x]) Hd) as [H1 [H2 H3]].
      split; [exact H1|]. split; [exact H2|].
      rewrite H3, map_app, <- app_assoc. reflexivity.
Qed.

Lemma mem_ext (k : string) (l1 l2 : list string) :
  (forall a, In a l1 <-> In a l2) -> mem k l1 = mem k l2.
Proof.
  intros H. destruct (mem k l1) eqn:E1, (mem k l2) eqn:E2; try reflexivity.
  - apply mem_In, H, mem_In in E1. congruence.
  - apply mem_In, H, mem_In in E2. congruence.
Qed.

Lemma NoDup_app_iff (l1 l2 : list string) :
  NoDup l2 -> (forall a, In a l1 -> ~ In a l2) ->
  (NoDup (l1 ++ l2) <-> NoDup l1).
Proof.
  intros H2 Hd. split.
  - apply NoDup_app_remove_r.
  - intros H1. apply NoDup_app; assumption.
Qed.

(** C4, as amended.  When both queries exit with 0 and every non-blank
    line carries its columns, [get_all] returns a record set, and no two of
    its records have the same id exactly when no name that is absent from
    the installed list occurs on more than one [-Sl] line.  A name of the
    installed list may occur on several [-Sl] lines: it keeps its single
    record. *)
Theorem get_all_unique_ids (e : env) (st st1 st2 : interp) (r1 r2 : result) :
  pacman e "-Q" no_pkgs [] None st = (Ret r1, st1) ->
  pacman e "-Sl" no_pkgs [] None st1 = (Ret r2, st2) ->
  code r1 = 0%Z -> code r2 = 0%Z ->
  Forall (columns 2) (rows (stdout r1)) ->
  Forall (columns 3) (rows (stdout r2)) ->
  exists l,
    get_all e st = (Ret l, st2)
    /\ (NoDup (map id l)
        <-> NoDup (new_names (map (token 0) (rows (stdout r1))) (stdout r2))).
Proof.
  intros HQ HSl H1 H2 Hq Hsl.
  set (d := fold_left put_installed (rows (stdout r1)) []).
  set (fin := fold_left reconcile_step (rows (stdout r2)) (d, [])).
  exists (snd fin ++ values (fst fin)). split.
  - unfold get_all. rewrite (bind_Ret _ _ _ _ _ HQ). rewrite (failed_zero _ H1).
    unfold bind at 1, lift. rewrite (installed_map_fold _ Hq). fold d.
    rewrite (bind_Ret _ _ _ _ _ HSl). rewrite (failed_zero _ H2).
    unfold bind, lift. rewrite (reconcile_fold _ _ Hsl). reflexivity.
  - assert (Hd : keyed d) by (apply keyed_installed; constructor).
    destruct (reconcile_fold_spec (rows (stdout r2)) d [] Hd) as [Hk [Hkeys Hids]].
    fold fin in Hk, Hkeys, Hids.
    rewrite map_app, (keyed_values _ Hk), Hkeys, Hids. simpl.
    assert (Hdk : keys d = first_seen (map (token 0) (rows (stdout r1))))
      by apply keys_put_installed.
    assert (Hnew : filter (fun n => negb (mem n (keys d)))
                     (map (token 1) (rows (stdout r2)))
                   = new_names (map (token 0) (rows (stdout r1))) (stdout r2)).
    { unfold new_names. apply filter_ext. intros n. f_equal.
      apply mem_ext. intros a. rewrite Hdk. apply first_seen_In. }
    rewrite Hnew. apply NoDup_app_iff.
    + rewrite Hdk. apply first_seen_NoDup_out.
    + intros a Ha Hin. unfold new_names in Ha. apply filter_In in Ha as [_ Ha].
      apply negb_true_iff in Ha.
      rewrite Hdk in Hin. apply (proj1 (first_seen_In _ _)) in Hin.
      apply (proj2 (mem_In _ _)) in Hin. rewrite Hin in Ha. discriminate.
Qed.

Lemma get_all_unique_ids_witness :
  exists l,
    get_all Sample.listing (import_module Sample.listing)
    = (Ret l,
       record_spawn (Sample.argv "-Sl" [])
         (record_spawn (Sample.argv "-Q" []) (import_module Sample.listing)))
    /\ (NoDup (map id l)
        <-> NoDup (new_names (map (token 0) (rows Inputs.two_installed))
                     ("extra vim 9.0.2" ++ PyStr.nl
                      ++ "community ripgrep 14.0" ++ PyStr.nl))).
Proof.
  apply (get_all_unique_ids Sample.listing (import_module Sample.listing)
           (record_spawn (Sample.argv "-Q" []) (import_module Sample.listing))
           _
           {| code := 0; stdout := Inputs.two_installed; stderr := "" |}
           {| code := 0;
              stdout := "extra vim 9.0.2" ++ PyStr.nl
                        ++ "community ripgrep 14.0" ++ PyStr.nl;
              stderr := "" |}).
  - vm_compute. reflexivity.
  - vm_compute. reflexivity.
  - reflexivity.
  - reflexivity.
  - vm_compute. repeat constructor.
  - vm_compute. repeat constructor.
Defined.

(** C4, the claim as stated fails: [foo] is not installed and is offered by
    two repositories, and [get_all] returns two records whose id is
    [foo]. *)
Lemma get_all_repeated_id :
  exists l,
    get_all Inputs.two_repos (import_module Inputs.two_repos)
    = (Ret l,
       record_spawn (Sample.argv "-Sl" [])
         (record_spawn (Sample.argv "-Q" []) (import_module Inputs.two_repos)))
    /\ map id l = ["foo"; "foo"; "vim"]
    /\ ~ NoDup (map id l).
Proof.
  eexists. split; [vm_compute; reflexivity|].
  split; [reflexivity|].
  simpl. intros H. inversion H as [|a l Hnot _]; subst.
  apply Hnot. left. reflexivity.
Qed.

(** *** The upgrade list *)

Lemma split_from_not_nil (sep : string) (s : string) (skip : nat)
      (limit : option nat) (cur : string) :
  PyStr.split_from sep skip limit cur s <> [].
Proof.
  revert skip limit cur.
  induction s as [|c s IH]; intros skip limit cur; cbn [PyStr.split_from].
  - discriminate.
  - destruct skip; [|apply IH].
    destruct (PyStr.may_split limit && prefix sep (String c s));
      [discriminate | apply IH].
Qed.

Lemma upgrade_row_ok (x : string) (d : dict package) :
  blank x = false -> 2 <= List.length (arrow_pieces x) ->
  upgrade_row x d = Ret (upgrade_step d x).
Proof.
  intros Hb Hc. unfold upgrade_row, upgrade_step. rewrite Hb.
  unfold arrow_pieces, tokens, index in *.
  destruct (PyStr.split " -> " None x) as [|x0 [|x1 xs]]; simpl in Hc; try lia.
  simpl.
  destruct (PyStr.split " " None x0) as [|name ts] eqn:E.
  - exfalso. revert E. apply split_from_not_nil.
  - simpl. destruct (dict_get name d); reflexivity.
Qed.

Lemma upgrade_row_blank (x : string) (d : dict package) :
  negb (blank x) = false -> upgrade_row x d = Ret d.
Proof.
  intros H. apply negb_false_iff in H. unfold upgrade_row. rewrite H.
  reflexivity.
Qed.

Lemma upgrade_fold (out : string) (d : dict package) :
  Forall (fun x => 2 <= List.length (arrow_pieces x)) (rows out) ->
  for_each upgrade_row (lines out) d = Ret (fold_left upgrade_step (rows out) d).
Proof.
  intros Hwf.
  rewrite (for_each_filter upgrade_row (fun x => negb (blank x)))
    by (intros; apply upgrade_row_blank; assumption).
  fold (rows out). apply for_each_fold.
  intros x s0 Hx. apply upgrade_row_ok.
  - apply (rows_not_blank out). exact Hx.
  - rewrite Forall_forall in Hwf. apply Hwf. exact Hx.
Qed.

Lemma failed_true (r : result) : failed r = true <-> code r <> 0%Z.
Proof.
  unfold failed. rewrite negb_true_iff. apply Z.eqb_neq.
Qed.

Lemma truthy_true (s : string) : PyStr.truthy s = true <-> s <> "".
Proof.
  unfold PyStr.truthy. destruct s; simpl; split; congruence.
Qed.

Lemma installed_not_upgradable (l : list string) (d : dict package) :
  Forall (fun p => upgradable p = NotUpgradable) (values d) ->
  Forall (fun p => upgradable p = NotUpgradable)
    (values (fold_left put_installed l d)).
Proof.
  revert d. induction l as [|x l IH]; intros d Hd; simpl; [exact Hd|].
  apply IH. unfold put_installed. apply values_dict_set_Forall; [reflexivity | exact Hd].
Qed.

(** C5, as amended.  When the [-Q] query exits with 0, every non-blank
    [-Q] line carries a name and a version and every non-blank [-Qu] line
    has its arrow, [get_installed] raises if and only if the [-Qu]
    invocation returns a non-zero exit code together with a non-empty
    (stripped) stderr; with exit code 0 and empty [-Qu] stdout it returns
    the records of the installed map, all with [upgradable = False]. *)
Theorem get_installed_raises_iff (e : env) (st st1 st2 : interp) (r1 r2 : result) :
  pacman e "-Q" no_pkgs [] None st = (Ret r1, st1) ->
  pacman e "-Qu" no_pkgs [] None st1 = (Ret r2, st2) ->
  code r1 = 0%Z ->
  Forall (columns 2) (rows (stdout r1)) ->
  Forall (fun x => 2 <= List.length (arrow_pieces x)) (rows (stdout r2)) ->
  ((exists x s, get_installed e st = (Raise x, s))
   <-> (code r2 <> 0%Z /\ stderr r2 <> ""))
  /\ (code r2 = 0%Z -> stdout r2 = "" ->
      exists d,
        installed_map (stdout r1) = Ret d
        /\ get_installed e st = (Ret (values d), st2)
        /\ Forall (fun p => upgradable p = NotUpgradable) (values d)).
Proof.
  intros HQ HQu H1 Hq Hu.
  set (d := fold_left put_installed (rows (stdout r1)) []).
  assert (Hrun : get_installed e st
                 = if failed r2 && PyStr.truthy (stderr r2)
                   then (Raise (Exception ("Failed to get upgradable list: "
                                           ++ stderr r2)), st2)
                   else (Ret (values (fold_left upgrade_step (rows (stdout r2)) d)),
                         st2)).
  { unfold get_installed. rewrite (bind_Ret _ _ _ _ _ HQ). rewrite (failed_zero _ H1).
    unfold bind at 1, lift. rewrite (installed_map_fold _ Hq). fold d.
    rewrite (bind_Ret _ _ _ _ _ HQu).
    destruct (failed r2 && PyStr.truthy (stderr r2)); [reflexivity|].
    unfold bind, lift. rewrite (upgrade_fold _ _ Hu). reflexivity. }
  split.
  - rewrite Hrun. destruct (failed r2 && PyStr.truthy (stderr r2)) eqn:Hc.
    + apply andb_true_iff in Hc as [Hf Ht].
      apply failed_true in Hf. apply truthy_true in Ht.
      split; [auto | eauto].
    + split.
      * intros [x [s Hx]]. discriminate.
      * intros [Hf Ht]. apply failed_true in Hf. apply truthy_true in Ht.
        rewrite Hf, Ht in Hc. discriminate.
  - intros H2 Hout. exists d.
    split; [apply installed_map_fold; exact Hq|]. split.
    + rewrite Hrun, (failed_zero _ H2), Hout. reflexivity.
    + apply installed_not_upgradable. constructor.
Qed.

Lemma get_installed_raises_iff_witness :
  ((exists x s,
       get_installed Inputs.up_to_date (import_module Inputs.up_to_date)
       = (Raise x, s))
   <-> (0%Z <> 0%Z /\ "" <> ""))
  /\ (0%Z = 0%Z -> "" = "" ->
      exists d,
        installed_map Inputs.two_installed = Ret d
        /\ get_installed Inputs.up_to_date (import_module Inputs.up_to_date)
           = (Ret (values d),
              record_spawn (Sample.argv "-Qu" [])
                (record_spawn (Sample.argv "-Q" [])
                   (import_module Inputs.up_to_date)))
        /\ Forall (fun p => upgradable p = NotUpgradable) (values d)).
Proof.
  apply (get_installed_raises_iff Inputs.up_to_date
           (import_module Inputs.up_to_date)
           (record_spawn (Sample.argv "-Q" []) (import_module Inputs.up_to_date))
           (record_spawn (Sample.argv "-Qu" [])
              (record_spawn (Sample.argv "-Q" [])
                 (import_module Inputs.up_to_date)))
           {| code := 0; stdout := Inputs.two_installed; stderr := "" |}
           {| code := 0; stdout := ""; stderr := "" |}).
  - vm_compute. reflexivity.
  - vm_compute. reflexivity.
  - reflexivity.
  - vm_compute. repeat constructor.
  - vm_compute. constructor.
Defined.

(** C5, the claim as stated fails: when the [-Q] query exits with 1,
    [get_installed] raises, although the [-Qu] invocation of this system
    exits with 0 and prints nothing (it is not even reached). *)
Lemma get_installed_raises_on_installed_list :
  get_installed Inputs.broken_db (import_module Inputs.broken_db)
  = (Raise (Exception ("Failed to get installed list: "
                       ++ "error: failed to initialize alpm library")),
     record_spawn (Sample.argv "-Q" []) (import_module Inputs.broken_db))
  /\ (forall s,
         fst (pacman Inputs.broken_db "-Qu" no_pkgs [] None
                (record_spawn s (import_module Inputs.broken_db)))
         = Ret {| code := 0; stdout := ""; stderr := "" |})
  /\ ~ ((exists x s,
            get_installed Inputs.broken_db (import_module Inputs.broken_db)
            = (Raise x, s))
        <-> (0%Z <> 0%Z /\ "" <> "")).
Proof.
  split; [vm_compute; reflexivity|].
  split; [intros s; vm_compute; reflexivity|].
  intros [H _].
  destruct H as [H _]; [|apply H; reflexivity].
  eexists. eexists. vm_compute. reflexivity.
Qed.

(** *** Strings *)

Lemma append_nil_r (s : string) : (s ++ "")%string = s.
Proof. induction s as [|c s IH]; simpl; [reflexivity | rewrite IH; reflexivity]. Qed.

Lemma append_assoc (a b c : string) :
  ((a ++ b) ++ c)%string = (a ++ (b ++ c))%string.
Proof. induction a as [|x a IH]; simpl; [reflexivity | rewrite IH; reflexivity]. Qed.

Lemma snoc_append (cur : string) (c : ascii) (s : string) :
  (PyStr.snoc cur c ++ s)%string = (cur ++ String c s)%string.
Proof. unfold PyStr.snoc. rewrite append_assoc. reflexivity. Qed.

Lemma prefix_colon (c : ascii) (s : string) :
  prefix ":" (String c s) = Ascii.eqb ":" c.
Proof.
  change (prefix ":" (String c s))
    with (if ascii_dec ":" c then prefix "" s else false).
  destruct (ascii_dec ":" c) as [<-|n].
  - rewrite Ascii.eqb_refl. destruct s; reflexivity.
  - symmetry. apply Ascii.eqb_neq. exact n.
Qed.

Lemma contains_colon_cons (c : ascii) (s : string) :
  PyStr.contains ":" (String c s) = Ascii.eqb ":" c || PyStr.contains ":" s.
Proof.
  change (PyStr.contains ":" (String c s))
    with (prefix ":" (String c s) || PyStr.contains ":" s).
  rewrite prefix_colon. reflexivity.
Qed.

(** With no split left, [split] returns the rest whole. *)
Lemma split_from_spent (sep : string) (s cur : string) :
  PyStr.split_from sep 0 (Some 0) cur s = [(cur ++ s)%string].
Proof.
  revert cur. induction s as [|c s IH]; intros cur; cbn [PyStr.split_from].
  - rewrite append_nil_r. reflexivity.
  - simpl PyStr.may_split. cbv iota. simpl andb. cbv iota.
    rewrite IH, snoc_append. reflexivity.
Qed.

(** [split(':', 1)] cuts at the first colon. *)
Lemma split_from_first_colon (a b cur : string) :
  PyStr.contains ":" a = false ->
  PyStr.split_from ":" 0 (Some 1) cur (a ++ String ":" b)
  = [(cur ++ a)%string; b].
Proof.
  revert cur. induction a as [|c a IH]; intros cur Ha.
  - simpl append. cbn [PyStr.split_from]. rewrite prefix_colon.
    simpl. rewrite split_from_spent, append_nil_r. reflexivity.
  - rewrite contains_colon_cons in Ha. apply orb_false_iff in Ha as [Hc Ha].
    simpl append. cbn [PyStr.split_from]. rewrite prefix_colon, Hc.
    simpl andb. cbv iota. rewrite (IH _ Ha), snoc_append. reflexivity.
Qed.

Lemma first_colon (x : string) :
  PyStr.contains ":" x = true ->
  exists a b, x = (a ++ String ":" b)%string /\ PyStr.contains ":" a = false.
Proof.
  induction x as [|c x IH]; intros H; [discriminate|].
  rewrite contains_colon_cons in H.
  destruct (Ascii.eqb ":" c) eqn:Hc.
  - apply Ascii.eqb_eq in Hc. subst c. exists "", x. split; reflexivity.
  - simpl in H. destruct (IH H) as [a [b [Hx Ha]]].
    exists (String c a), b. split.
    + simpl. rewrite Hx. reflexivity.
    + rewrite contains_colon_cons, Hc, Ha. reflexivity.
Qed.

Lemma split_colon (a b : string) :
  PyStr.contains ":" a = false ->
  PyStr.split ":" (Some 1) (a ++ String ":" b) = [a; b].
Proof.
  intros Ha. unfold PyStr.split. rewrite (split_from_first_colon a b "" Ha).
  reflexivity.
Qed.

Lemma split_ws_from_nil (s cur : string) :
  PyStr.split_ws_from cur s = [] -> cur = "" /\ PyStr.contains ":" s = false.
Proof.
  revert cur. induction s as [|c s IH]; intros cur; cbn [PyStr.split_ws_from].
  - destruct cur; cbn [PyStr.is_empty]; [auto | discriminate].
  - destruct (PyStr.isspace c) eqn:Hsp.
    + destruct cur; cbn [PyStr.is_empty]; [|discriminate].
      intros H. destruct (IH _ H) as [_ Hs]. split; [reflexivity|].
      rewrite contains_colon_cons, Hs.
      destruct (Ascii.eqb_spec ":" c) as [<-|]; [discriminate Hsp | reflexivity].
    + intros H. destruct (IH _ H) as [Hcur _]. destruct cur; discriminate.
Qed.

Lemma field_not_blank (x : string) : is_field x = true -> blank x = false.
Proof.
  unfold is_field, blank, PyStr.split_ws. intros H.
  destruct (PyStr.split_ws_from "" x) eqn:E; [|reflexivity].
  apply split_ws_from_nil in E as [_ E]. congruence.
Qed.

(** *** Info blocks *)

Lemma info_row_blank (x : string) (T : list (string * string)) :
  blank x = true -> info_row x T = Ret T.
Proof. intros H. unfold info_row. rewrite H. reflexivity. Qed.

Lemma info_row_field (x : string) (T : list (string * string)) :
  is_field x = true ->
  info_row x T = Ret (T ++ [(field_name x, field_value x)]).
Proof.
  intros Hf. unfold info_row, field_name, field_value.
  rewrite (field_not_blank _ Hf). unfold is_field in Hf. rewrite Hf.
  destruct (first_colon _ Hf) as [a [b [-> Ha]]].
  rewrite (split_colon _ _ Ha). reflexivity.
Qed.

Lemma index_last_snoc {A : Type} (P : list A) (p : A) :
  index_last (P ++ [p]) = Ret p.
Proof.
  unfold index_last. destruct (P ++ [p]) eqn:E; [destruct P; discriminate|].
  rewrite <- E. unfold index. rewrite last_length. simpl pred.
  rewrite nth_error_app2 by lia. rewrite Nat.sub_diag. reflexivity.
Qed.

Lemma info_row_cont (x : string) (P : list (string * string)) (p : string * string) :
  blank x = false -> is_field x = false ->
  info_row x (P ++ [p])
  = Ret (P ++ [(fst p, (snd p ++ "  " ++ PyStr.strip x)%string)]).
Proof.
  intros Hb Hf. unfold info_row. unfold is_field in Hf. rewrite Hb, Hf.
  rewrite index_last_snoc. simpl obind. rewrite removelast_last. reflexivity.
Qed.



Lemma field_names_cons (x : string) (ls : list string) :
  field_names (x :: ls)
  = if is_field x then field_name x :: field_names ls else field_names ls.
Proof. unfold field_names. simpl. destruct (is_field x); reflexivity. Qed.


(** Once a field has been read, the loop cannot fail. *)
Lemma info_total_from (ls : list string) (T : list (string * string)) :
  T <> [] ->
  exists T1,
    for_each info_row ls T = Ret T1 /\ T1 <> []
    /\ map fst T1 = map fst T ++ field_names ls.
Proof.
  revert T. induction ls as [|x ls IH]; intros T HT.
  - exists T. simpl. rewrite app_nil_r. auto.
  - simpl. rewrite field_names_cons. destruct (blank x) eqn:Hb.
    + rewrite (info_row_blank _ _ Hb). simpl.
      destruct (is_field x) eqn:Hf.
      * rewrite (field_not_blank _ Hf) in Hb. discriminate.
      * apply IH. exact HT.
    + destruct (is_field x) eqn:Hf.
      * rewrite (info_row_field _ _ Hf). simpl.
        destruct (IH (T ++ [(field_name x, field_value x)])) as [T1 [H1 [H2 H3]]].
        { destruct T; discriminate. }
        exists T1. split; [exact H1|]. split; [exact H2|].
        rewrite H3, map_app, <- app_assoc. reflexivity.
      * destruct (exists_last HT) as [Q [p ->]].
        rewrite (info_row_cont _ _ _ Hb Hf). simpl.
        destruct (IH (Q ++ [(fst p, (snd p ++ "  " ++ PyStr.strip x)%string)]))
          as [T1 [H1 [H2 H3]]].
        { destruct Q; discriminate. }
        exists T1. split; [exact H1|]. split; [exact H2|].
        rewrite H3, !map_app. reflexivity.
Qed.

(** A block that opens with a field line is read to the end. *)
Lemma info_total (ls : list string) :
  field_first ls = true ->
  exists T, for_each info_row ls [] = Ret T /\ map fst T = field_names ls.
Proof.
  induction ls as [|x ls IH]; intros H.
  - exists []. auto.
  - simpl. rewrite field_names_cons. unfold field_first in H. simpl in H.
    destruct (blank x) eqn:Hb; simpl in H.
    + rewrite (info_row_blank _ _ Hb). simpl.
      destruct (is_field x) eqn:Hf.
      * rewrite (field_not_blank _ Hf) in Hb. discriminate.
      * apply IH. exact H.
    + rewrite H. rewrite (info_row_field _ _ H). simpl.
      destruct (info_total_from ls [(field_name x, field_value x)])
        as [T1 [H1 [_ H3]]]; [discriminate|].
      exists T1. split; [exact H1 | exact H3].
Qed.

Lemma keys_to_dict_from (l : list (string * string)) (d : dict string) :
  keys (fold_left (fun result x => dict_set (fst x) (snd x) result) l d)
  = fold_left seen_step (map fst l) (keys d).
Proof.
  revert d. induction l as [|x l IH]; intros d; [reflexivity|].
  simpl. rewrite IH. f_equal. apply keys_dict_set.
Qed.





(* ===================================================================== *)
(** ** Further properties of the module *)
(* ===================================================================== *)

(** *** The selected binary *)

(** X1. [set_bin] either returns, and then its argument is a [str] and the
    only change is that [__PACMAN_BIN] holds [shutil.which(path)], or raises
    and leaves the interpreter as it was.  It spawns nothing. *)
Theorem set_bin_outcomes (e : env) (path : value) (st : interp) :
  (exists p,
      path = VStr p
      /\ set_bin e path st
         = (Ret tt,
            {| __PACMAN_BIN := shutil_which e p;
               pacman__pacman_bin := pacman__pacman_bin st;
               get_info__pacman_bin := get_info__pacman_bin st;
               spawned := spawned st |}))
  \/ (exists x, set_bin e path st = (Raise x, st)).
Proof.
  destruct path as [|p]; simpl.
  - right. eexists. reflexivity.
  - unfold bind, ret, lift, raise, assign_PACMAN_BIN.
    destruct (isfile e p).
    + left. exists p. split; reflexivity.
    + destruct (os_path_isfile e (shutil_which e p)) as [[|]|x].
      * left. exists p. split; reflexivity.
      * right. eexists. reflexivity.
      * right. eexists. reflexivity.
Qed.

(** X2. When [shutil.which] resolves the argument to [q], and the argument
    or [q] is a regular file, [set_bin] returns and [get_bin] then answers
    [q]: the stored path is the resolved one, not the argument. *)
Theorem set_bin_get_bin (e : env) (p q : string) (st : interp) :
  which e p = Some q ->
  isfile e p = true \/ isfile e q = true ->
  (set_bin e (VStr p) ;;; get_bin) st
  = (Ret (VStr q),
     {| __PACMAN_BIN := VStr q;
        pacman__pacman_bin := pacman__pacman_bin st;
        get_info__pacman_bin := get_info__pacman_bin st;
        spawned := spawned st |}).
Proof.
  intros Hw Hf. unfold bind, set_bin, bind, ret, lift, get_bin, assign_PACMAN_BIN.
  unfold shutil_which. rewrite Hw. simpl.
  destruct (isfile e p); [reflexivity|].
  destruct Hf as [Hf|Hf]; [discriminate|]. rewrite Hf. reflexivity.
Qed.

Lemma set_bin_get_bin_witness :
  (set_bin Faults.with_helper (VStr "yay") ;;; get_bin)
    (import_module Faults.with_helper)
  = (Ret (VStr "/usr/bin/yay"),
     {| __PACMAN_BIN := VStr "/usr/bin/yay";
        pacman__pacman_bin := pacman__pacman_bin (import_module Faults.with_helper);
        get_info__pacman_bin :=
          get_info__pacman_bin (import_module Faults.with_helper);
        spawned := spawned (import_module Faults.with_helper) |}).
Proof.
  apply (set_bin_get_bin Faults.with_helper "yay" "/usr/bin/yay").
  - reflexivity.
  - right. reflexivity.
Defined.

(** *** What the operations leave alone *)

Lemma keeps_config_refl (st : interp) : keeps_config st st.
Proof.
  repeat split. exists []. rewrite app_nil_r. reflexivity.
Qed.

Lemma keeps_config_trans (s1 s2 s3 : interp) :
  keeps_config s1 s2 -> keeps_config s2 s3 -> keeps_config s1 s3.
Proof.
  intros [A1 [B1 [C1 [l1 D1]]]] [A2 [B2 [C2 [l2 D2]]]].
  repeat split; try congruence.
  exists (l1 ++ l2). rewrite D2, D1, app_assoc. reflexivity.
Qed.

Lemma steady_ret {A : Type} (a : A) : steady (ret a).
Proof. intros st. apply keeps_config_refl. Qed.

Lemma steady_raise {A : Type} (x : exn) : steady (@raise A x).
Proof. intros st. apply keeps_config_refl. Qed.

Lemma steady_lift {A : Type} (c : outcome A) : steady (lift c).
Proof. intros st. apply keeps_config_refl. Qed.

Lemma steady_bind {A B : Type} (c : M A) (k : A -> M B) :
  steady c -> (forall a, steady (k a)) -> steady (bind c k).
Proof.
  intros Hc Hk st. unfold bind. specialize (Hc st).
  destruct (c st) as [[a|x] st']; simpl in *.
  - apply (keeps_config_trans _ st'); [exact Hc | apply Hk].
  - exact Hc.
Qed.

Lemma steady_try_except {A : Type} (c : M A) (h : exn -> M A) :
  steady c -> (forall x, steady (h x)) -> steady (try_except c h).
Proof.
  intros Hc Hh st. unfold try_except. specialize (Hc st).
  destruct (c st) as [[a|x] st']; simpl in *.
  - exact Hc.
  - apply (keeps_config_trans _ st'); [exact Hc | apply Hh].
Qed.

Lemma steady_Popen (e : env) (cmd : list value) :
  steady (Popen_communicate e cmd).
Proof.
  intros st. unfold Popen_communicate, record_spawn. simpl.
  repeat split. exists [cmd]. reflexivity.
Qed.

Lemma steady_pacman (e : env) (f : string) (ps : pkgs_arg) (es : list value)
      (b : option value) :
  steady (pacman e f ps es b).
Proof.
  intros st. unfold pacman.
  apply steady_bind; [apply steady_Popen|].
  intros [[rc o] er].
  apply steady_bind; [apply steady_lift|]. intros so.
  apply steady_bind; [apply steady_lift|]. intros se.
  apply steady_ret.
Qed.

Ltac steady :=
  repeat first
    [ apply steady_pacman | apply steady_ret | apply steady_raise
    | apply steady_lift
    | apply steady_bind; [|intro]
    | apply steady_try_except; [|intro]
    | match goal with
      | |- steady (if ?b then _ else _) => destruct b
      | |- steady (local _ ?v) => destruct v; unfold local
      end ].

Lemma steady_install (e : env) (p : pkgs_arg) (n : bool) : steady (install e p n).
Proof. unfold install. steady. Qed.

(** X3. No operation of the module other than [set_bin] changes
    [__PACMAN_BIN] or the defaults that [pacman] and [get_info] captured,
    whatever the tool answers and whether the operation returns or raises;
    each one only adds to the spawned commands. *)
Theorem operations_keep_configuration (e : env) (http_post : string -> outcome string) :
  (forall p n, steady (install e p n))
  /\ steady (refresh e)
  /\ (forall p, steady (upgrade e p))
  /\ (forall p g, steady (remove e p g))
  /\ steady (get_all e)
  /\ steady (get_installed e)
  /\ steady (get_available e)
  /\ (forall p b, steady (get_info e p b))
  /\ (forall p, steady (needs_for e p))
  /\ (forall p, steady (depends_for e p))
  /\ (forall p, steady (is_installed e p))
  /\ (forall p, steady (is_aur e http_post p)).
Proof.
  repeat apply conj; intros.
  - apply steady_install.
  - unfold refresh. steady.
  - unfold upgrade. steady.
  - unfold remove. steady.
  - unfold get_all. steady.
  - unfold get_installed. steady.
  - unfold get_available. steady.
  - intros st. unfold get_info. cbv beta zeta.
    match goal with
    | |- keeps_config ?s (snd (?c ?s)) => assert (H : steady c); [|apply H]
    end.
    unfold is_installed. steady.
  - unfold needs_for. steady.
  - unfold depends_for. steady.
  - unfold is_installed. steady.
  - unfold is_aur. steady.
Qed.

(** *** The operations that change the system *)

Lemma pacman_answers (e : env) (f : string) (ps : pkgs_arg) (es : list value)
      (b : option value) (st : interp) (r : result) :
  answers e st (spec_argv (chosen_bin b st) f ps es) r ->
  pacman e f ps es b st
  = (Ret r, record_spawn (spec_argv (chosen_bin b st) f ps es) st).
Proof.
  intros [o [er [Hp [Ho He]]]].
  unfold pacman, bind, Popen_communicate, lift, ret, bytes_decode.
  fold (chosen_bin b st). rewrite build_cmd_spec, Hp, Ho, He.
  destruct r; reflexivity.
Qed.

Lemma checked_failed (prefix : string) (r : result) (st : interp) :
  (if failed r then raise (Exception (prefix ++ stderr r)%string) else ret tt) st
  = (checked prefix r, st).
Proof.
  unfold failed, checked. destruct (Z.eqb (code r) 0); reflexivity.
Qed.

(** X4. [install(packages, needed)] spawns one command, [-S] followed by
    the package tokens and, only when [needed] holds, [--needed]; it
    returns when the exit code is 0 and otherwise raises an exception whose
    message is ["Failed to install: "] followed by the stripped stderr. *)
Theorem install_outcome (e : env) (ps : pkgs_arg) (needed : bool)
        (st : interp) (r : result) :
  let cmd := base_cmd st "-S" ++ spec_pkg_tokens ps
             ++ (if needed then [VStr "--needed"] else []) in
  answers e st cmd r ->
  install e ps needed st
  = (checked "Failed to install: " r, record_spawn cmd st).
Proof.
  intros cmd H. unfold install.
  assert (Hc : cmd = spec_argv (chosen_bin None st) "-S" ps
                       [if needed then VStr "--needed" else VNone]).
  { unfold cmd, spec_argv, base_cmd. simpl. destruct needed; reflexivity. }
  rewrite Hc in *.
  rewrite (bind_Ret _ _ _ _ _ (pacman_answers _ _ _ _ _ _ _ H)).
  apply checked_failed.
Qed.

Lemma install_outcome_witness :
  install Faults.installing (PList ["vim"]) true
    (import_module Faults.installing)
  = (checked "Failed to install: " {| code := 0; stdout := ""; stderr := "" |},
     record_spawn
       (base_cmd (import_module Faults.installing) "-S"
          ++ spec_pkg_tokens (PList ["vim"]) ++ [VStr "--needed"])
       (import_module Faults.installing)).
Proof.
  apply (install_outcome Faults.installing (PList ["vim"]) true
           (import_module Faults.installing)
           {| code := 0; stdout := ""; stderr := "" |}).
  exists [], []. repeat split; reflexivity.
Defined.

(** X5. [remove(packages, purge)] spawns one command whose flag is [-Rcn]
    when [purge] holds and [-Rc] otherwise, followed by the package tokens;
    a non-zero exit code raises ["Failed to remove: "] with the stderr. *)
Theorem remove_outcome (e : env) (ps : pkgs_arg) (purge : bool)
        (st : interp) (r : result) :
  let cmd := base_cmd st (if purge then "-Rcn" else "-Rc")
             ++ spec_pkg_tokens ps in
  answers e st cmd r ->
  remove e ps purge st
  = (checked "Failed to remove: " r, record_spawn cmd st).
Proof.
  intros cmd H. unfold remove.
  assert (Hc : cmd = spec_argv (chosen_bin None st)
                       ("-Rc" ++ (if purge then "n" else "")) ps []).
  { unfold cmd, spec_argv, base_cmd. simpl. rewrite app_nil_r.
    destruct purge; reflexivity. }
  rewrite Hc in *.
  rewrite (bind_Ret _ _ _ _ _ (pacman_answers _ _ _ _ _ _ _ H)).
  apply checked_failed.
Qed.

(** X6. [upgrade] with an empty (falsy) [packages] spawns [-Su] alone,
    returns on exit code 0 and raises ["Failed to upgrade packages: "] with
    the stderr otherwise. *)
Theorem upgrade_all_outcome (e : env) (ps : pkgs_arg) (st : interp) (r : result) :
  truthy_pkgs ps = false ->
  answers e st (base_cmd st "-Su") r ->
  upgrade e ps st
  = (checked "Failed to upgrade packages: " r,
     record_spawn (base_cmd st "-Su") st).
Proof.
  intros Hp H. unfold upgrade. rewrite Hp.
  assert (Hc : base_cmd st "-Su" = spec_argv (chosen_bin None st) "-Su" no_pkgs [])
    by reflexivity.
  rewrite Hc in *.
  unfold bind at 1. unfold bind at 1.
  rewrite (pacman_answers _ _ _ _ _ _ _ H). unfold ret at 1.
  unfold bind, local, ret at 1.
  apply checked_failed.
Qed.

Lemma remove_outcome_witness :
  remove Systems.removing (PVal (VStr "vim")) true
    (import_module Systems.removing)
  = (checked "Failed to remove: "
       {| code := 1; stdout := ""; stderr := "error: target not found: vim" |},
     record_spawn
       (base_cmd (import_module Systems.removing) "-Rcn"
          ++ spec_pkg_tokens (PVal (VStr "vim")))
       (import_module Systems.removing)).
Proof.
  apply (remove_outcome Systems.removing (PVal (VStr "vim")) true
           (import_module Systems.removing)
           {| code := 1; stdout := "";
              stderr := "error: target not found: vim" |}).
  eexists. eexists. repeat split; vm_compute; reflexivity.
Defined.

Lemma upgrade_all_outcome_witness :
  upgrade Systems.upgrading (PList []) (import_module Systems.upgrading)
  = (checked "Failed to upgrade packages: "
       {| code := 0; stdout := ""; stderr := "" |},
     record_spawn (base_cmd (import_module Systems.upgrading) "-Su")
       (import_module Systems.upgrading)).
Proof.
  apply (upgrade_all_outcome Systems.upgrading (PList [])
           (import_module Systems.upgrading)
           {| code := 0; stdout := ""; stderr := "" |}).
  - reflexivity.
  - exists [], []. repeat split; reflexivity.
Defined.

(** *** The queries that fail first *)

(** X7. When the [-Q] query exits with a non-zero code, [get_all] and
    [get_installed] raise ["Failed to get installed list: "] with the
    stderr, and the second query ([-Sl], [-Qu]) is never spawned. *)
Theorem listing_stops_at_installed_list (e : env) (st : interp) (r : result) :
  answers e st (base_cmd st "-Q") r ->
  code r <> 0%Z ->
  get_all e st
  = (Raise (Exception ("Failed to get installed list: " ++ stderr r)),
     record_spawn (base_cmd st "-Q") st)
  /\ get_installed e st
     = (Raise (Exception ("Failed to get installed list: " ++ stderr r)),
        record_spawn (base_cmd st "-Q") st).
Proof.
  intros H Hc.
  assert (Hq : base_cmd st "-Q" = spec_argv (chosen_bin None st) "-Q" no_pkgs [])
    by reflexivity.
  rewrite Hq in *. apply pacman_answers in H.
  assert (Hf : failed r = true).
  { unfold failed. apply negb_true_iff, Z.eqb_neq. exact Hc. }
  split.
  - unfold get_all. rewrite (bind_Ret _ _ _ _ _ H), Hf. reflexivity.
  - unfold get_installed. rewrite (bind_Ret _ _ _ _ _ H), Hf. reflexivity.
Qed.

Lemma listing_stops_at_installed_list_witness :
  get_all Inputs.broken_db (import_module Inputs.broken_db)
  = (Raise (Exception ("Failed to get installed list: "
                       ++ "error: failed to initialize alpm library")),
     record_spawn (base_cmd (import_module Inputs.broken_db) "-Q")
       (import_module Inputs.broken_db))
  /\ get_installed Inputs.broken_db (import_module Inputs.broken_db)
     = (Raise (Exception ("Failed to get installed list: "
                          ++ "error: failed to initialize alpm library")),
        record_spawn (base_cmd (import_module Inputs.broken_db) "-Q")
          (import_module Inputs.broken_db)).
Proof.
  apply (listing_stops_at_installed_list Inputs.broken_db
           (import_module Inputs.broken_db)
           {| code := 1; stdout := "";
              stderr := "error: failed to initialize alpm library" |}).
  - eexists. eexists. repeat split; vm_compute; reflexivity.
  - discriminate.
Defined.

(** *** Tokens and bytes of the process runner *)

Lemma length_append (a b : string) :
  String.length (a ++ b) = String.length a + String.length b.
Proof. induction a as [|c a IH]; simpl; [reflexivity | rewrite IH; reflexivity]. Qed.

Lemma length_replace_char (old : ascii) (new s : string) :
  1 <= String.length new ->
  String.length s <= String.length (PyStr.replace_char old new s).
Proof.
  intros Hn. induction s as [|c s IH]; simpl; [lia|].
  rewrite length_append. destruct (Ascii.eqb c old); simpl; lia.
Qed.

(** [shlex.quote] returns its argument exactly on the non-empty strings
    made of safe characters. *)
Lemma quote_identity (s : string) :
  PyStr.quote s = s <-> s <> "" /\ PyStr.all_safe s = true.
Proof.
  unfold PyStr.quote. destruct s as [|c s]; simpl PyStr.is_empty; cbv iota.
  - split; [discriminate | intros [H _]; congruence].
  - destruct (PyStr.all_safe (String c s)) eqn:Hs.
    + split; [intros _; split; [discriminate | reflexivity] | reflexivity].
    + split; [|intros [_ H]; discriminate].
      intros H. apply (f_equal String.length) in H.
      rewrite !length_append in H.
      pose proof (length_replace_char PyStr.squote
                    (String PyStr.squote ""
                     ++ String PyStr.dquote ""
                     ++ String PyStr.squote ""
                     ++ String PyStr.dquote ""
                     ++ String PyStr.squote "")
                    (String c s)) as Hl.
      simpl String.length in H, Hl. lia.
Qed.

(** X8. The names of a package list reach the argument vector unchanged
    exactly when each of them is non-empty and made of the characters that
    [shlex.quote] leaves alone (letters, digits and [_@%+=:,./-]); any
    other name is passed with quote characters added, although no shell
    reads the vector. *)
Theorem package_names_unchanged_iff (b : value) (f : string) (l : list string) :
  build_cmd b f (PList l) [] = [b; VStr "--noconfirm"; VStr f] ++ map VStr l
  <-> (forall s, In s l -> s <> "" /\ PyStr.all_safe s = true).
Proof.
  rewrite build_cmd_spec. unfold spec_argv. simpl filter. rewrite app_nil_r.
  simpl spec_pkg_tokens. split.
  - intros H. apply app_inv_head in H.
    induction l as [|x l IH]; intros s Hs; [contradiction|].
    simpl in H. inversion H as [[Hx Hl]].
    destruct Hs as [<-|Hs].
    + apply quote_identity. exact Hx.
    + apply IH; assumption.
  - intros H. f_equal.
    induction l as [|x l IH]; [reflexivity|].
    simpl. rewrite (proj2 (quote_identity x)) by (apply H; left; reflexivity).
    rewrite IH; [reflexivity|]. intros s Hs. apply H. right. exact Hs.
Qed.

Lemma rstrip_lf_spec (b : list byte) :
  (exists n, b = PyStr.rstrip_lf b ++ repeat x0a n)
  /\ (forall pre, PyStr.rstrip_lf b <> pre ++ [x0a]).
Proof.
  induction b as [|c b [[n Hn] Hend]]; simpl.
  - split; [exists 0; reflexivity | intros [|? ?]; discriminate].
  - destruct (PyStr.rstrip_lf b) as [|a r] eqn:Hr.
    + destruct (Byte.eqb c x0a) eqn:Hc.
      * apply Byte.byte_dec_bl in Hc. subst c. split.
        { exists (S n). simpl. rewrite Hn at 1. reflexivity. }
        { intros [|? ?]; discriminate. }
      * apply Byte.eqb_false in Hc. split.
        { exists n. simpl. rewrite Hn at 1. reflexivity. }
        { intros [|p pre] H; inversion H; subst; [congruence|].
          destruct pre; discriminate. }
    + split.
      * exists n. simpl. rewrite Hn at 1. reflexivity.
      * intros [|p pre] H; inversion H; subst.
        apply (Hend pre). assumption.
Qed.

(** X9. The [stderr] that [pacman] returns is the decoding of the captured
    bytes without their trailing newline bytes, and of nothing else: what
    is decoded does not end in a newline, and only newlines were cut. *)
Theorem pacman_stderr_strips_newlines_only (e : env) (f : string)
        (ps : pkgs_arg) (es : list value) (b : option value)
        (st st' : interp) (r : result) (rc : Z) (o er : list byte) :
  popen e (spawned st) (build_cmd (chosen_bin b st) f ps es) = Ret (rc, o, er) ->
  pacman e f ps es b st = (Ret r, st') ->
  exists kept n,
    er = kept ++ repeat x0a n
    /\ (forall pre, kept <> pre ++ [x0a])
    /\ decode e kept = Some (stderr r)
    /\ decode e o = Some (stdout r)
    /\ code r = rc.
Proof.
  intros Hp H. unfold pacman, bind, Popen_communicate, lift, ret, bytes_decode in H.
  fold (chosen_bin b st) in H. rewrite Hp in H.
  destruct (decode e o) as [so|] eqn:Ho; [|discriminate].
  destruct (decode e (PyStr.rstrip_lf er)) as [se|] eqn:He; [|discriminate].
  inversion H; subst. simpl.
  destruct (rstrip_lf_spec er) as [[n Hn] Hend].
  exists (PyStr.rstrip_lf er), n. auto.
Qed.

Lemma pacman_stderr_strips_newlines_only_witness :
  exists kept n,
    list_byte_of_string ("error: target not found: vim" ++ PyStr.nl)
    = kept ++ repeat x0a n
    /\ (forall pre, kept <> pre ++ [x0a])
    /\ decode Systems.removing kept
       = Some (stderr {| code := 1; stdout := "";
                         stderr := "error: target not found: vim" |})
    /\ decode Systems.removing []
       = Some (stdout {| code := 1; stdout := "";
                         stderr := "error: target not found: vim" |})
    /\ code {| code := 1; stdout := "";
               stderr := "error: target not found: vim" |} = 1%Z.
Proof.
  apply (pacman_stderr_strips_newlines_only Systems.removing "-Rcn"
           (PVal (VStr "vim")) [] None (import_module Systems.removing)
           (record_spawn (Sample.argv "-Rcn" ["vim"])
              (import_module Systems.removing))).
  - vm_compute. reflexivity.
  - vm_compute. reflexivity.
Defined.

(** *** The available list *)

Lemma fold_left_snoc_map {A B : Type} (f : A -> B) (l : list A) (acc : list B) :
  fold_left (fun res x => res ++ [f x]) l acc = acc ++ map f l.
Proof.
  revert acc. induction l as [|x l IH]; intros acc; simpl.
  - rewrite app_nil_r. reflexivity.
  - rewrite IH, <- app_assoc. reflexivity.
Qed.

Lemma available_row_ok (x : string) (res : list available) :
  blank x = false -> columns 3 x ->
  available_row x res = Ret (res ++ [available_of x]).
Proof.
  intros Hb Hc. unfold available_row, available_of. rewrite Hb.
  unfold token, columns, tokens, index in *.
  destruct (PyStr.split " " None x) as [|t0 [|t1 [|t2 ts]]]; simpl in Hc; try lia.
  reflexivity.
Qed.

Lemma available_row_blank (x : string) (res : list available) :
  negb (blank x) = false -> available_row x res = Ret res.
Proof.
  intros H. apply negb_false_iff in H. unfold available_row. rewrite H.
  reflexivity.
Qed.

(** X10. When [-Sl] exits with 0, [get_available] returns one record per
    non-blank line, in the order of the lines and without merging repeated
    names, if every such line has three columns; it raises [IndexError] if
    one of them has fewer.  Empty output gives the empty list. *)
Theorem get_available_rows (e : env) (st st' : interp) (r : result) :
  pacman e "-Sl" no_pkgs [] None st = (Ret r, st') ->
  code r = 0%Z ->
  (Forall (columns 3) (rows (stdout r)) ->
   get_available e st = (Ret (map available_of (rows (stdout r))), st'))
  /\ (Exists (fun x => List.length (tokens x) < 3) (rows (stdout r)) ->
      get_available e st = (Raise IndexError, st'))
  /\ (stdout r = "" -> get_available e st = (Ret [], st')).
Proof.
  intros H Hc.
  assert (Hrun : get_available e st
                 = (for_each available_row (lines (stdout r)) [], st')).
  { unfold get_available. rewrite (bind_Ret _ _ _ _ _ H), (failed_zero _ Hc).
    reflexivity. }
  rewrite Hrun. split; [|split].
  - intros Hwf. f_equal.
    rewrite (for_each_filter available_row (fun x => negb (blank x)))
      by (intros; apply available_row_blank; assumption).
    fold (rows (stdout r)).
    rewrite (for_each_fold available_row (fun res x => res ++ [available_of x])).
    + rewrite fold_left_snoc_map. reflexivity.
    + intros x s0 Hx. apply available_row_ok.
      * apply (rows_not_blank _ _ Hx).
      * rewrite Forall_forall in Hwf. apply Hwf. exact Hx.
  - intros Hex. apply Exists_exists in Hex as [x [Hx Hshort]]. f_equal.
    apply (for_each_index_error _ _ x).
    + intros; apply available_row_only_index_error.
    + apply rows_lines. exact Hx.
    + intros. apply available_row_short; [apply (rows_not_blank _ _ Hx) | exact Hshort].
  - intros ->. reflexivity.
Qed.

Lemma get_available_rows_witness :
  (Forall (columns 3) (rows Systems.two_available) ->
   get_available Sample.listing (import_module Sample.listing)
   = (Ret (map available_of (rows Systems.two_available)),
      record_spawn (Sample.argv "-Sl" []) (import_module Sample.listing)))
  /\ (Exists (fun x => List.length (tokens x) < 3) (rows Systems.two_available) ->
      get_available Sample.listing (import_module Sample.listing)
      = (Raise IndexError,
         record_spawn (Sample.argv "-Sl" []) (import_module Sample.listing)))
  /\ (Systems.two_available = EmptyString ->
      get_available Sample.listing (import_module Sample.listing)
      = (Ret [],
         record_spawn (Sample.argv "-Sl" []) (import_module Sample.listing))).
Proof.
  apply (get_available_rows Sample.listing (import_module Sample.listing) _
           {| code := 0; stdout := Systems.two_available; stderr := "" |}).
  - vm_compute. reflexivity.
  - reflexivity.
Defined.

(** *** The shape of the combined listing *)

Lemma dict_get_values_Forall {V : Type} (P : V -> Prop) (k : string)
      (d : dict V) (v : V) :
  Forall P (values d) -> dict_get k d = Some v -> P v.
Proof.
  induction d as [|[k' v'] d IH]; simpl; intros Hd Hg; [discriminate|].
  inversion Hd; subst. destruct (String.eqb k k').
  - inversion Hg; subst. assumption.
  - apply IH; assumption.
Qed.

Lemma installed_values_Forall (P : package -> Prop) (l : list string)
      (d : dict package) :
  (forall x, P (snd (installed_entry x))) ->
  Forall P (values d) -> Forall P (values (fold_left put_installed l d)).
Proof.
  intros Hp. revert d. induction l as [|x l IH]; intros d Hd; simpl; [exact Hd|].
  apply IH. unfold put_installed. apply values_dict_set_Forall; [apply Hp | exact Hd].
Qed.

(** What an installed record satisfies at every moment of [get_all]. *)
Lemma annotate_sound (x : string) (r : package) :
  (installed r = true
   /\ forall v, upgradable r = UpgradeTo v -> v <> version r) ->
  installed (annotate x r) = true
  /\ forall v, upgradable (annotate x r) = UpgradeTo v -> v <> version (annotate x r).
Proof.
  intros [Hi Hu]. unfold annotate. simpl.
  destruct (String.eqb_spec (version r) (token 2 x)) as [E|E]; simpl.
  - split; [exact Hi | exact Hu].
  - split; [exact Hi|]. intros v Hv. inversion Hv; subst. congruence.
Qed.

Lemma reconcile_fold_parts (rs : list string) (d : dict package) (res : list package) :
  Forall (fun p => installed p = true
                   /\ forall v, upgradable p = UpgradeTo v -> v <> version p)
    (values d) ->
  let st := fold_left reconcile_step rs (d, res) in
  Forall (fun p => installed p = true
                   /\ forall v, upgradable p = UpgradeTo v -> v <> version p)
    (values (fst st))
  /\ snd st
     = res ++ map available_record
                (filter (fun x => negb (mem (token 1 x) (keys d))) rs).
Proof.
  revert d res. induction rs as [|x rs IH]; intros d res Hd; simpl.
  - rewrite app_nil_r. auto.
  - unfold reconcile_step at 2 4. simpl fst. simpl snd.
    rewrite (dict_get_mem (token 1 x) d).
    destruct (dict_get (token 1 x) d) as [r|] eqn:Hg; simpl negb; cbv iota.
    + assert (Hkeys : keys (dict_set (token 1 x) (annotate x r) d) = keys d).
      { rewrite keys_dict_set, dict_get_mem, Hg. reflexivity. }
      destruct (IH (dict_set (token 1 x) (annotate x r) d) res) as [H1 H2].
      { apply values_dict_set_Forall; [|exact Hd].
        apply annotate_sound. apply (dict_get_values_Forall _ _ _ _ Hd Hg). }
      rewrite Hkeys in H2. auto.
    + destruct (IH d (res ++ [available_record x]) Hd) as [H1 H2].
      split; [exact H1|]. rewrite H2. simpl map. rewrite <- app_assoc.
      reflexivity.
Qed.

(** X11. When both queries exit with 0 and the lines carry their columns,
    the list that [get_all] returns is made of two parts: first one record
    per [-Sl] line whose name is not installed, in the order of the lines,
    each with [installed = False] and [upgradable = False]; then one record
    per installed name, in order of first occurrence in the [-Q] output,
    each with [installed = True] and an [upgradable] that, when it is a
    version, differs from the installed version. *)
Theorem get_all_structure (e : env) (st st1 st2 : interp) (r1 r2 : result) :
  pacman e "-Q" no_pkgs [] None st = (Ret r1, st1) ->
  pacman e "-Sl" no_pkgs [] None st1 = (Ret r2, st2) ->
  code r1 = 0%Z -> code r2 = 0%Z ->
  Forall (columns 2) (rows (stdout r1)) ->
  Forall (columns 3) (rows (stdout r2)) ->
  exists inst,
    get_all e st
    = (Ret (map available_record
              (filter (fun x => negb (mem (token 1 x)
                                        (map (token 0) (rows (stdout r1)))))
                 (rows (stdout r2)))
            ++ inst), st2)
    /\ map id inst = first_seen (map (token 0) (rows (stdout r1)))
    /\ Forall (fun p => installed p = true
                        /\ forall v, upgradable p = UpgradeTo v -> v <> version p)
         inst.
Proof.
  intros HQ HSl H1 H2 Hq Hsl.
  set (d := fold_left put_installed (rows (stdout r1)) []).
  set (fin := fold_left reconcile_step (rows (stdout r2)) (d, [])).
  assert (Hd : keyed d) by (apply keyed_installed; constructor).
  assert (Hdk : keys d = first_seen (map (token 0) (rows (stdout r1))))
    by apply keys_put_installed.
  destruct (reconcile_fold_spec (rows (stdout r2)) d [] Hd) as [Hk [Hkeys _]].
  destruct (reconcile_fold_parts (rows (stdout r2)) d []) as [Hv Hnew].
  { apply installed_values_Forall; [|constructor].
    intros x. simpl. split; [reflexivity | discriminate]. }
  fold fin in Hk, Hkeys, Hv, Hnew.
  exists (values (fst fin)). split; [|split].
  - unfold get_all. rewrite (bind_Ret _ _ _ _ _ HQ). rewrite (failed_zero _ H1).
    unfold bind at 1, lift. rewrite (installed_map_fold _ Hq). fold d.
    rewrite (bind_Ret _ _ _ _ _ HSl). rewrite (failed_zero _ H2).
    unfold bind, lift. rewrite (reconcile_fold _ _ Hsl). fold fin.
    unfold ret. rewrite Hnew. simpl app. do 4 f_equal.
    apply filter_ext. intros x. f_equal. apply mem_ext.
    intros a. rewrite Hdk. apply first_seen_In.
  - rewrite (keyed_values _ Hk), Hkeys. exact Hdk.
  - exact Hv.
Qed.

Lemma get_all_structure_witness :
  exists inst,
    get_all Sample.listing (import_module Sample.listing)
    = (Ret (map available_record
              (filter (fun x => negb (mem (token 1 x)
                                        (map (token 0) (rows Inputs.two_installed))))
                 (rows Systems.two_available))
            ++ inst),
       record_spawn (Sample.argv "-Sl" [])
         (record_spawn (Sample.argv "-Q" []) (import_module Sample.listing)))
    /\ map id inst = first_seen (map (token 0) (rows Inputs.two_installed))
    /\ Forall (fun p => installed p = true
                        /\ forall v, upgradable p = UpgradeTo v -> v <> version p)
         inst.
Proof.
  apply (get_all_structure Sample.listing (import_module Sample.listing)
           (record_spawn (Sample.argv "-Q" []) (import_module Sample.listing))
           _
           {| code := 0; stdout := Inputs.two_installed; stderr := "" |}
           {| code := 0; stdout := Systems.two_available; stderr := "" |}).
  - vm_compute. reflexivity.
  - vm_compute. reflexivity.
  - reflexivity.
  - reflexivity.
  - vm_compute. repeat constructor.
  - vm_compute. repeat constructor.
Defined.

(** *** The installed listing *)






Lemma set_upgradable_twice (v w : string) (p : package) :
  set_upgradable v (set_upgradable w p) = set_upgradable v p.
Proof. reflexivity. Qed.






(** *** Name lists *)









(** *** Info blocks, continued *)

Lemma info_headless (ls : list string) :
  field_first ls = false -> for_each info_row ls [] = Raise IndexError.
Proof.
  induction ls as [|x ls IH]; intros H; [discriminate|].
  unfold field_first in H. simpl in H. simpl.
  destruct (blank x) eqn:Hb; simpl in H.
  - rewrite (info_row_blank _ _ Hb). simpl. apply IH. exact H.
  - unfold info_row. unfold is_field in H. rewrite Hb, H. reflexivity.
Qed.

Lemma to_dict_snoc (l : list (string * string)) (x : string * string) :
  to_dict (l ++ [x]) = dict_set (fst x) (snd x) (to_dict l).
Proof. unfold to_dict. rewrite fold_left_app. reflexivity. Qed.

(** X14. The mapping that [get_info] builds from the pairs it has read has
    pairwise distinct keys, and the value of a key is that of the last
    pair that carries it. *)
Theorem to_dict_last_wins (l : list (string * string)) :
  NoDup (keys (to_dict l))
  /\ forall k,
      dict_get k (to_dict l)
      = option_map snd (find_last (fun p => String.eqb (fst p) k) l).
Proof.
  split.
  - unfold to_dict. rewrite keys_to_dict_from. apply (seen_fold_spec _ []).
    constructor.
  - intros k. induction l as [|x l IH] using rev_ind; [reflexivity|].
    rewrite to_dict_snoc. unfold find_last. rewrite rev_app_distr. simpl.
    destruct (String.eqb_spec (fst x) k) as [E|E].
    + subst k. simpl. apply dict_get_set_same.
    + rewrite (dict_get_set_other _ _ _ _ E). exact IH.
Qed.

(** X15. When the info query exits with 0, [get_info] returns a mapping
    exactly when the first non-blank line of the output, if there is one,
    has a colon: then the keys are the names of the field lines in order of
    first occurrence (none for an empty output); otherwise the continuation
    line finds no field to extend and [IndexError] is raised. *)
Theorem get_info_returns_iff (e : env) (package : pkgs_arg)
        (bin : option value) (st st1 st2 : interp) (inst : bool) (r : result) :
  is_installed e package st = (Ret inst, st1) ->
  pacman e (if inst then "-Qi" else "-Si") package []
    (Some (chosen_info_bin bin st)) st1 = (Ret r, st2) ->
  code r = 0%Z ->
  (field_first (lines (stdout r)) = true ->
   exists d,
     get_info e package bin st = (Ret d, st2)
     /\ keys d = first_seen (field_names (lines (stdout r))))
  /\ (field_first (lines (stdout r)) = false ->
      get_info e package bin st = (Raise IndexError, st2))
  /\ (stdout r = "" -> get_info e package bin st = (Ret [], st2)).
Proof.
  intros Hinst Hrun Hcode.
  assert (Hgo : get_info e package bin st
                = (obind (for_each info_row (lines (stdout r)) [])
                     (fun interim => Ret (to_dict interim)), st2)).
  { unfold get_info. cbv zeta. unfold chosen_info_bin in Hrun.
    rewrite (bind_Ret _ _ _ _ _ Hinst). rewrite (bind_Ret _ _ _ _ _ Hrun).
    rewrite (failed_zero _ Hcode). unfold bind, lift, ret.
    destruct (for_each info_row (lines (stdout r)) []); reflexivity. }
  rewrite Hgo. split; [|split].
  - intros Hf. destruct (info_total _ Hf) as [T [HT HTn]].
    exists (to_dict T). rewrite HT. split; [reflexivity|].
    unfold to_dict. rewrite keys_to_dict_from, HTn. reflexivity.
  - intros Hf. rewrite (info_headless _ Hf). reflexivity.
  - intros ->. reflexivity.
Qed.

Lemma get_info_returns_iff_witness :
  (field_first (lines ("warning" ++ PyStr.nl ++ "Name : foo" ++ PyStr.nl)) = true ->
   exists d,
     get_info Systems.headless (PVal (VStr "foo")) None
       (import_module Systems.headless)
     = (Ret d,
        record_spawn (Sample.argv "-Si" ["foo"])
          (record_spawn (Sample.argv "-Q" ["foo"])
             (import_module Systems.headless)))
     /\ keys d
        = first_seen
            (field_names (lines ("warning" ++ PyStr.nl ++ "Name : foo" ++ PyStr.nl))))
  /\ (field_first (lines ("warning" ++ PyStr.nl ++ "Name : foo" ++ PyStr.nl)) = false ->
      get_info Systems.headless (PVal (VStr "foo")) None
        (import_module Systems.headless)
      = (Raise IndexError,
         record_spawn (Sample.argv "-Si" ["foo"])
           (record_spawn (Sample.argv "-Q" ["foo"])
              (import_module Systems.headless))))
  /\ (("warning" ++ PyStr.nl ++ "Name : foo" ++ PyStr.nl)%string = EmptyString ->
      get_info Systems.headless (PVal (VStr "foo")) None
        (import_module Systems.headless)
      = (Ret [],
         record_spawn (Sample.argv "-Si" ["foo"])
           (record_spawn (Sample.argv "-Q" ["foo"])
              (import_module Systems.headless)))).
Proof.
  apply (get_info_returns_iff Systems.headless (PVal (VStr "foo")) None
           (import_module Systems.headless)
           (record_spawn (Sample.argv "-Q" ["foo"])
              (import_module Systems.headless))
           _ false
           {| code := 0;
              stdout := "warning" ++ PyStr.nl ++ "Name : foo" ++ PyStr.nl;
              stderr := "" |}).
  - vm_compute. reflexivity.
  - vm_compute. reflexivity.
  - reflexivity.
Defined.

Lemma pacman_spawned (e : env) (f : string) (ps : pkgs_arg) (es : list value)
      (b : option value) (st : interp) :
  snd (pacman e f ps es b st)
  = record_spawn (spec_argv (chosen_bin b st) f ps es) st.
Proof.
  unfold pacman, bind, Popen_communicate, lift, ret.
  fold (chosen_bin b st). rewrite build_cmd_spec.
  destruct (popen e (spawned st) _) as [[[rc o] er]|x]; simpl;
    [destruct (bytes_decode e o) as [so|x]; simpl;
     [destruct (bytes_decode e (PyStr.rstrip_lf er)); simpl|]|];
    reflexivity.
Qed.

(** X16. [get_info(package, pacman_bin)] spawns two commands when both
    answer: the probe [-Q package], always with the default binary of
    [pacman], and then the info query with the binary of [get_info], whose
    flag is [-Qi] if the probe exited with 0 and [-Si] otherwise. *)
Theorem get_info_binaries (e : env) (package : pkgs_arg) (bin : option value)
        (st st1 st2 : interp) (rq r : result) :
  pacman e "-Q" package [] None st = (Ret rq, st1) ->
  pacman e (if Z.eqb (code rq) 0 then "-Qi" else "-Si") package []
    (Some (chosen_info_bin bin st)) st1 = (Ret r, st2) ->
  spawned (snd (get_info e package bin st))
  = spawned st
      ++ [spec_argv (pacman__pacman_bin st) "-Q" package [];
          spec_argv (chosen_info_bin bin st)
            (if Z.eqb (code rq) 0 then "-Qi" else "-Si") package []].
Proof.
  intros HQ Hrun.
  assert (H2 : st2 = record_spawn
                       (spec_argv (chosen_info_bin bin st)
                          (if Z.eqb (code rq) 0 then "-Qi" else "-Si") package [])
                       st1).
  { pose proof (pacman_spawned e (if Z.eqb (code rq) 0 then "-Qi" else "-Si")
                  package [] (Some (chosen_info_bin bin st)) st1) as Hx.
    rewrite Hrun in Hx. exact Hx. }
  assert (H1 : st1 = record_spawn (spec_argv (pacman__pacman_bin st) "-Q" package []) st).
  { pose proof (pacman_spawned e "-Q" package [] None st) as Hx.
    rewrite HQ in Hx. exact Hx. }
  assert (Hs : snd (get_info e package bin st) = st2).
  { unfold get_info. cbv zeta. unfold is_installed, chosen_info_bin in *.
    unfold bind at 1. unfold bind at 1. rewrite HQ. unfold ret at 1.
    rewrite (bind_Ret _ _ _ _ _ Hrun).
    destruct (failed r); [reflexivity|].
    unfold bind, lift, ret.
    destruct (for_each info_row (lines (stdout r)) []); reflexivity. }
  rewrite Hs, H2, H1. simpl. rewrite <- app_assoc. reflexivity.
Qed.

Lemma get_info_binaries_witness :
  spawned (snd (get_info Systems.helper_info (PVal (VStr "vim"))
                  (Some (VStr "/usr/bin/yay"))
                  (import_module Systems.helper_info)))
  = spawned (import_module Systems.helper_info)
      ++ [spec_argv (pacman__pacman_bin (import_module Systems.helper_info))
            "-Q" (PVal (VStr "vim")) [];
          spec_argv (chosen_info_bin (Some (VStr "/usr/bin/yay"))
                       (import_module Systems.helper_info))
            (if Z.eqb (code {| code := 0; stdout := "vim 9.0.1" ++ PyStr.nl;
                               stderr := "" |}) 0
             then "-Qi" else "-Si")
            (PVal (VStr "vim")) []].
Proof.
  apply (get_info_binaries Systems.helper_info (PVal (VStr "vim"))
           (Some (VStr "/usr/bin/yay")) (import_module Systems.helper_info)
           (record_spawn (Sample.argv "-Q" ["vim"])
              (import_module Systems.helper_info))
           (record_spawn
              [VStr "/usr/bin/yay"; VStr "--noconfirm"; VStr "-Qi"; VStr "vim"]
              (record_spawn (Sample.argv "-Q" ["vim"])
                 (import_module Systems.helper_info)))
           {| code := 0; stdout := "vim 9.0.1" ++ PyStr.nl; stderr := "" |}
           {| code := 0; stdout := "Name : vim" ++ PyStr.nl; stderr := "" |}).
  - vm_compute. reflexivity.
  - vm_compute. reflexivity.
Defined.

(** *** The AUR lookup *)

Lemma existsb_eqb_In (p : string) (l : list string) :
  existsb (fun i => String.eqb i p) l = true <-> In p l.
Proof.
  rewrite existsb_exists. split.
  - intros [x [Hx Hp]]. apply String.eqb_eq in Hp. subst. exact Hx.
  - intros H. exists p. split; [exact H | apply String.eqb_refl].
Qed.

(** X17. [is_aur] never raises, whatever the tool and the network do, and
    it spawns one command, the name search [-Ssq], whose binary is the
    literal ["pacman"]: neither [set_bin] nor the defaults reach it. *)
Theorem is_aur_total (e : env) (http_post : string -> outcome string)
        (p : string) (st : interp) :
  exists b,
    is_aur e http_post p st
    = (Ret b,
       record_spawn (spec_argv (VStr "pacman") "-Ssq" (PVal (VStr p)) []) st).
Proof.
  unfold is_aur, try_except, bind.
  pose proof (pacman_spawned e "-Ssq" (PVal (VStr p)) [] (Some (VStr "pacman")) st) as Hs.
  simpl chosen_bin in Hs.
  destruct (pacman e "-Ssq" (PVal (VStr p)) [] (Some (VStr "pacman")) st)
    as [[s|x] st'] eqn:Hp; simpl in Hs; subst st'.
  - destruct (existsb (fun i => String.eqb i p) (lines (stdout s))).
    + eexists. reflexivity.
    + unfold lift, ret. destruct (http_post (aur_url p)) as [body|x].
      * destruct (PyStr.contains no_match_marker body); eexists; reflexivity.
      * eexists. reflexivity.
  - eexists. reflexivity.
Qed.

(** X18. When the name search answers, [is_aur] says [True] exactly when
    no line of its output is the package name, the request to the AUR
    returns a body, and the body lacks the no-match marker.  The exit code
    of the search plays no part. *)
Theorem is_aur_true_iff (e : env) (http_post : string -> outcome string)
        (p : string) (st st' : interp) (r : result) :
  pacman e "-Ssq" (PVal (VStr p)) [] (Some (VStr "pacman")) st = (Ret r, st') ->
  fst (is_aur e http_post p st) = Ret true
  <-> (~ In p (lines (stdout r))
       /\ exists body,
           http_post (aur_url p) = Ret body
           /\ PyStr.contains no_match_marker body = false).
Proof.
  intros H. unfold is_aur, try_except, bind. rewrite H.
  destruct (existsb (fun i => String.eqb i p) (lines (stdout r))) eqn:Hex.
  - apply existsb_eqb_In in Hex. simpl. split; [discriminate | tauto].
  - assert (Hn : ~ In p (lines (stdout r))).
    { intros Hin. apply existsb_eqb_In in Hin. congruence. }
    unfold lift, ret. destruct (http_post (aur_url p)) as [body|x]; simpl.
    + destruct (PyStr.contains no_match_marker body) eqn:Hm; simpl.
      * split; [discriminate|]. intros [_ [b [Hb Hc]]]. inversion Hb; subst.
        congruence.
      * split; [|reflexivity]. intros _. split; [exact Hn|]. eauto.
    + split; [discriminate|]. intros [_ [b [Hb _]]]. discriminate.
Qed.

Lemma is_aur_true_iff_witness :
  fst (is_aur Systems.official Systems.offline "vim"
         (import_module Systems.official)) = Ret true
  <-> (~ In "vim" (lines (stdout {| code := 0;
                                    stdout := unlines ["vim"; "vim-runtime"];
                                    stderr := "" |}))
       /\ exists body,
           Systems.offline (aur_url "vim") = Ret body
           /\ PyStr.contains no_match_marker body = false).
Proof.
  apply (is_aur_true_iff Systems.official Systems.offline "vim"
           (import_module Systems.official)
           (record_spawn
              [VStr "pacman"; VStr "--noconfirm"; VStr "-Ssq"; VStr "vim"]
              (import_module Systems.official))).
  vm_compute. reflexivity.
Defined.

(** *** Upgrade lines without an arrow *)

(** X19. A non-blank [-Qu] line that has no [" -> "] is skipped when the
    name it starts with is not in the installed map, and raises
    [IndexError] when it is: the target is read only for installed
    names. *)
Theorem upgrade_row_without_arrow (x : string) (d : dict package) :
  blank x = false ->
  List.length (arrow_pieces x) < 2 ->
  upgrade_row x d
  = if mem (upgrade_name x) (keys d) then Raise IndexError else Ret d.
Proof.
  intros Hb Hc. unfold upgrade_row, upgrade_name. rewrite Hb.
  rewrite dict_get_mem.
  unfold arrow_pieces, tokens, index in *.
  destruct (PyStr.split " -> " None x) as [|x0 [|x1 xs]] eqn:E; simpl in Hc; try lia.
  - exfalso. revert E. apply split_from_not_nil.
  - simpl. destruct (PyStr.split " " None x0) as [|name ts] eqn:E0.
    + exfalso. revert E0. apply split_from_not_nil.
    + simpl. destruct (dict_get name d); reflexivity.
Qed.

Lemma upgrade_row_without_arrow_witness :
  upgrade_row "vim 9.0.2" [installed_entry "vim 9.0.1"]
  = if mem (upgrade_name "vim 9.0.2") (keys [installed_entry "vim 9.0.1"])
    then Raise IndexError else Ret [installed_entry "vim 9.0.1"].
Proof.
  apply (upgrade_row_without_arrow "vim 9.0.2" [installed_entry "vim 9.0.1"]).
  - reflexivity.
  - vm_compute. repeat constructor.
Defined.

(** *** The argument vector and the captured stderr *)

Lemma safe_not_special (c : ascii) :
  PyStr.shell_safe c = true ->
  Ascii.eqb c PyStr.squote = false
  /\ Ascii.eqb c PyStr.dquote = false
  /\ sh_special c = false.
Proof.
  destruct c as [[] [] [] [] [] [] [] []]; vm_compute; intros H;
    try discriminate H; repeat split; reflexivity.
Qed.

(** Outside quotes the shell takes safe characters as they are. *)
Lemma sh_read_safe (s acc : string) :
  PyStr.all_safe s = true -> sh_read Bare acc s = Some (acc ++ s)%string.
Proof.
  revert acc. induction s as [|c s IH]; intros acc H; simpl.
  - rewrite append_nil_r. reflexivity.
  - simpl in H. apply andb_true_iff in H as [Hc Hs].
    destruct (safe_not_special c Hc) as [H1 [H2 H3]].
    rewrite H1, H2, H3, (IH _ Hs), snoc_append. reflexivity.
Qed.

(** Inside single quotes the shell reads back what [shlex.quote] wrote for
    the characters of [s], up to the closing quote. *)
Lemma sh_read_single (s acc rest : string) :
  sh_read Single acc
    (PyStr.replace_char PyStr.squote
       (String PyStr.squote ""
        ++ String PyStr.dquote ""
        ++ String PyStr.squote ""
        ++ String PyStr.dquote ""
        ++ String PyStr.squote "") s
     ++ String PyStr.squote rest)
  = sh_read Bare (acc ++ s) rest.
Proof.
  revert acc. induction s as [|c s IH]; intros acc.
  - simpl. rewrite append_nil_r. reflexivity.
  - cbn [PyStr.replace_char]. destruct (Ascii.eqb_spec c PyStr.squote) as [->|Hc].
    + rewrite append_assoc. simpl. rewrite IH, snoc_append. reflexivity.
    + rewrite append_assoc. cbn [append sh_read].
      apply Ascii.eqb_neq in Hc. rewrite Hc, IH, snoc_append. reflexivity.
Qed.

(** The shell reads the token of [shlex.quote] back as the string. *)
Lemma quote_read_back (s : string) : sh_word (PyStr.quote s) = Some s.
Proof.
  unfold PyStr.quote. destruct s as [|c s]; [reflexivity|].
  cbn [PyStr.is_empty]. destruct (PyStr.all_safe (String c s)) eqn:Hs.
  - unfold sh_word. cbn [PyStr.is_empty]. apply (sh_read_safe (String c s) "" Hs).
  - unfold sh_word. cbn [append PyStr.is_empty sh_read].
    rewrite Ascii.eqb_refl. apply (sh_read_single (String c s) "" "").
Qed.

Lemma record_spawn_inj (c1 c2 : list value) (st : interp) :
  record_spawn c1 st = record_spawn c2 st -> c1 = c2.
Proof.
  intros H. apply (f_equal spawned) in H. simpl in H.
  apply app_inv_head in H. inversion H. reflexivity.
Qed.

(** C7, as amended.  A call of the process runner with primary flag [f],
    extra flags [es] and binary [b] hands [Popen] the vector that starts
    with the binary, ["--noconfirm"] and [f] and ends with the entries of
    [es] that are not falsy.  In between: for a package list of any length,
    one token per element, each shell-escaped, in that a shell reads the
    token back as the element; for a bare truthy value, that value as one
    token, unescaped; for a bare falsy value (the empty string, [None]),
    nothing.  The returned [stderr] is the decoding of the captured bytes
    without their trailing newlines: what is decoded does not end in a
    newline and only newlines were cut. *)
Theorem pacman_vector_escaped_and_stripped (e : env) (f : string)
        (es : list value) (b : option value) (st : interp) :
  let head := [chosen_bin b st; VStr "--noconfirm"; VStr f] in
  let extras := filter truthy_value es in
  (forall l,
      exists toks,
        snd (pacman e f (PList l) es b st)
        = record_spawn (head ++ map VStr toks ++ extras) st
        /\ Forall2 (fun s tok => sh_word tok = Some s) l toks)
  /\ (forall v,
         truthy_value v = true ->
         snd (pacman e f (PVal v) es b st)
         = record_spawn (head ++ [v] ++ extras) st)
  /\ (forall v,
         truthy_value v = false ->
         snd (pacman e f (PVal v) es b st) = record_spawn (head ++ extras) st)
  /\ (forall ps cmd rc o er,
         snd (pacman e f ps es b st) = record_spawn cmd st ->
         popen e (spawned st) cmd = Ret (rc, o, er) ->
         exists kept n,
           er = kept ++ repeat x0a n
           /\ (forall pre, kept <> pre ++ [x0a])
           /\ fst (pacman e f ps es b st)
              = (so <- bytes_decode e o ;;
                 se <- bytes_decode e kept ;;
                 Ret {| code := rc; stdout := so; stderr := se |})).
Proof.
  intros head extras. split; [|split; [|split]].
  - intros l. exists (map PyStr.quote l). split.
    + rewrite pacman_spawned. unfold spec_argv. simpl spec_pkg_tokens.
      rewrite map_map. reflexivity.
    + induction l as [|s l IH]; simpl; constructor;
        [apply quote_read_back | exact IH].
  - intros v Hv. rewrite pacman_spawned. unfold spec_argv. simpl spec_pkg_tokens.
    rewrite Hv. reflexivity.
  - intros v Hv. rewrite pacman_spawned. unfold spec_argv. simpl spec_pkg_tokens.
    rewrite Hv. reflexivity.
  - intros ps cmd rc o er Hcmd Hp.
    rewrite pacman_spawned in Hcmd. apply record_spawn_inj in Hcmd. subst cmd.
    destruct (rstrip_lf_spec er) as [[n Hn] Hend].
    exists (PyStr.rstrip_lf er), n. split; [exact Hn|]. split; [exact Hend|].
    unfold pacman, bind, Popen_communicate, lift, ret.
    fold (chosen_bin b st). rewrite build_cmd_spec, Hp. simpl.
    destruct (bytes_decode e o) as [so|x]; simpl; [|reflexivity].
    destruct (bytes_decode e (PyStr.rstrip_lf er)); reflexivity.
Qed.

Lemma pacman_vector_escaped_and_stripped_witness :
  (exists toks,
      snd (pacman Systems.removing "-Rcn" (PList ["it's"; "vim"]) [] None
             (import_module Systems.removing))
      = record_spawn
          ([VStr "/usr/bin/pacman"; VStr "--noconfirm"; VStr "-Rcn"]
             ++ map VStr toks ++ [])
          (import_module Systems.removing)
      /\ Forall2 (fun s tok => sh_word tok = Some s) ["it's"; "vim"] toks)
  /\ snd (pacman Systems.removing "-Rcn" (PVal (VStr "vim")) [] None
            (import_module Systems.removing))
     = record_spawn
         ([VStr "/usr/bin/pacman"; VStr "--noconfirm"; VStr "-Rcn"]
            ++ [VStr "vim"] ++ [])
         (import_module Systems.removing)
  /\ snd (pacman Systems.removing "-Rcn" (PVal VNone) [] None
            (import_module Systems.removing))
     = record_spawn
         ([VStr "/usr/bin/pacman"; VStr "--noconfirm"; VStr "-Rcn"] ++ [])
         (import_module Systems.removing)
  /\ exists kept n,
       list_byte_of_string ("error: target not found: vim" ++ PyStr.nl)
       = kept ++ repeat x0a n
       /\ (forall pre, kept <> pre ++ [x0a])
       /\ fst (pacman Systems.removing "-Rcn" (PVal (VStr "vim")) [] None
                 (import_module Systems.removing))
          = (so <- bytes_decode Systems.removing [] ;;
             se <- bytes_decode Systems.removing kept ;;
             Ret {| code := 1; stdout := so; stderr := se |}).
Proof.
  destruct (pacman_vector_escaped_and_stripped Systems.removing "-Rcn" [] None
              (import_module Systems.removing)) as [H1 [H2 [H3 H4]]].
  split; [apply H1|]. split; [apply H2; reflexivity|].
  split; [apply H3; reflexivity|].
  apply (H4 (PVal (VStr "vim")) (Sample.argv "-Rcn" ["vim"])).
  - vm_compute. reflexivity.
  - vm_compute. reflexivity.
Defined.

(** C7, the claim as stated fails: the bare value [""] is not appended.
    [pacman("-Q", "")] runs the vector of three elements, without a fourth
    token, so that [is_installed("")] lists every package and answers
    [True]. *)
Lemma pacman_drops_empty_bare_value :
  snd (pacman Sample.listing "-Q" (PVal (VStr "")) [] None
         (import_module Sample.listing))
  = record_spawn [VStr "/usr/bin/pacman"; VStr "--noconfirm"; VStr "-Q"]
      (import_module Sample.listing)
  /\ [VStr "/usr/bin/pacman"; VStr "--noconfirm"; VStr "-Q"]
     <> [VStr "/usr/bin/pacman"; VStr "--noconfirm"; VStr "-Q"; VStr ""]
  /\ fst (is_installed Sample.listing (PVal (VStr ""))
            (import_module Sample.listing)) = Ret true.
Proof.
  split; [vm_compute; reflexivity|].
  split; [discriminate | vm_compute; reflexivity].
Qed.
